(** * Intersection module utilities and the simple planning simulator

    A shallow embedding of

    - [planning/behavior_velocity_intersection_module/src/util_type.hpp]
      (the data types of the intersection module and the inline accessors of
      [IntersectionLanelets]),
    - functions declared in
      [planning/behavior_velocity_intersection_module/src/util.hpp], and
    - [simulator/simple_planning_simulator/.../simple_planning_simulator_core.cpp]:
      [set_input] and [add_measurement_noise], and the callbacks, the timer
      and the publishers as a machine over the members of the node
      ([SimulatorNode]).

    Conventions.  In the simulator a C++ [double] is an IEEE 754 binary64
    number and a [float] a binary32 number, both as [spec_float] of the
    Standard Library, with the operations rounding to nearest, ties to even
    ([IEEE754]); every conversion between the two formats that the code
    makes, written or implied by the types, is a [to_float] or a [to_double]
    here.  Each operation rounds on its own: expressions are evaluated in
    the precision of their type and multiplications and additions are not
    fused.  In the intersection module, whose functions have no body in
    these sources, coordinates, lengths and speeds are rational numbers
    ([Q]).  [size_t] and [int] path indices are integers ([Z]); an index
    that the code stores in a [size_t] is kept non-negative by the code that
    produces it.  [std::optional<T>] is [option T], [std::vector<T>] is
    [list T], [std::set<int>] is [gset Z] and [std::map<int, T>] is
    [gmap Z T]. *)

From Stdlib Require Import ZArith QArith Qround Lia List Bool String SpecFloat.
From stdpp Require Import base option list gmap.

Import ListNotations.

(* ===================================================================== *)
(** * Floating-point numbers                                              *)
(* ===================================================================== *)

Module IEEE754.

(** [double] (binary64: 53 bits of precision, [emax = 1024]) and [float]
    (binary32: 24 bits, [emax = 128]). *)
Abbreviation double := spec_float.
Abbreviation float := spec_float.

(** Arithmetic on [double]. *)
Definition dadd (a b : double) : double := SFadd 53 1024 a b.
Definition dsub (a b : double) : double := SFsub 53 1024 a b.
Definition dmul (a b : double) : double := SFmul 53 1024 a b.
Definition ddiv (a b : double) : double := SFdiv 53 1024 a b.
Definition dopp (a : double) : double := SFopp a.

(** Unary minus on [float]. *)
Definition fopp (a : float) : float := SFopp a.

(** The comparisons [<] and [<=]: false when an operand is not a number. *)
Definition dltb (a b : double) : bool := SFltb a b.
Definition dleb (a b : double) : bool := SFleb a b.

(** The conversion of a [double] to [float]: the nearest [float], an
    infinity when the magnitude is too large. *)
Definition to_float (a : double) : float :=
  match a with
  | S754_finite s m e => binary_round 24 128 s m e
  | _ => a
  end.

(** The conversion of a [float] to [double], which is exact. *)
Definition to_double (a : float) : double :=
  match a with
  | S754_finite s m e => binary_round 53 1024 s m e
  | _ => a
  end.

(** The literals [0.0] and [0.0F]. *)
Definition dzero : double := S754_zero false.
Definition fzero : float := S754_zero false.

(** The [double] of an integer of at most 53 bits, and the [double] of the
    decimal literal that is written [a / b] as a fraction: the nearest
    [double] to it. *)
Definition double_of_Z (a : Z) : double := binary_normalize 53 1024 a 0 false.

Definition double_literal (a : Z) (b : positive) : double :=
  ddiv (double_of_Z a) (double_of_Z (Zpos b)).

(** [std::numeric_limits<double>::max()]. *)
Definition DBL_MAX : double := SFmax_float 53 1024.

(** The rational number a finite floating-point number stands for. *)
Definition value (a : spec_float) : Q :=
  match a with
  | S754_finite s m e =>
      let magnitude :=
        match e with
        | Zneg p => Zpos m # (2 ^ p)
        | _ => inject_Z (Zpos m * 2 ^ e)
        end in
      if s then Qopp magnitude else magnitude
  | _ => 0%Q
  end.

(** The place of a number in the order of [<]: the class (negative
    infinity, negative, zero, positive, positive infinity), then exponent
    and mantissa, both negated for a negative number. *)
Definition order_key (a : spec_float) : Z * Z * Z :=
  match a with
  | S754_infinity true => (-2, 0, 0)%Z
  | S754_finite true m e => (-1, - e, Zneg m)%Z
  | S754_zero _ | S754_nan => (0, 0, 0)%Z
  | S754_finite false m e => (1, e, Zpos m)%Z
  | S754_infinity false => (2, 0, 0)%Z
  end.

Definition is_nan (a : spec_float) : bool :=
  match a with
  | S754_nan => true
  | _ => false
  end.

(** The lexicographic order of the keys. *)
Definition key_lt (k1 k2 : Z * Z * Z) : Prop :=
  let '(c1, e1, m1) := k1 in
  let '(c2, e2, m2) := k2 in
  (c1 < c2 \/ (c1 = c2 /\ (e1 < e2 \/ (e1 = e2 /\ m1 < m2))))%Z.

End IEEE754.

(* ===================================================================== *)
(** * The simple planning simulator                                       *)
(* ===================================================================== *)

Module SimplePlanningSimulator.

Import IEEE754.

(** [enum class VehicleModelType]: the six enumerators the simulator
    dispatches on. *)
Inductive VehicleModelType : Set :=
| IDEAL_STEER_VEL
| IDEAL_STEER_ACC
| IDEAL_STEER_ACC_GEARED
| DELAY_STEER_VEL
| DELAY_STEER_ACC
| DELAY_STEER_ACC_GEARED.

(** [AckermannControlCommand], with the two sub-messages the simulator
    reads; their fields are [float32]. *)
Record AckermannLateralCommand : Set := {
  steering_tire_angle : float
}.

Record LongitudinalCommand : Set := {
  speed : float;
  acceleration : float
}.

Record AckermannControlCommand : Set := {
  lateral : AckermannLateralCommand;
  longitudinal : LongitudinalCommand
}.

(** The part of [SimModelInterface] that [set_input] touches: the gear set by
    [setGear] and the input vector set by [setInput].  The [Eigen::VectorXd]
    is the list of its coefficients. *)
Record SimModelInterface : Set := {
  gear_ : Z;
  input_ : list double
}.

Definition getGear (m : SimModelInterface) : Z := gear_ m.

Definition setGear (g : Z) (m : SimModelInterface) : SimModelInterface :=
  {| gear_ := g; input_ := input_ m |}.

Definition setInput (u : list double) (m : SimModelInterface) : SimModelInterface :=
  {| gear_ := gear_ m; input_ := u |}.

(** The members of the node that [set_input] reads or writes. *)
Record Simulator : Set := {
  vehicle_model_type_ : VehicleModelType;
  vehicle_model_ptr_ : SimModelInterface
}.

(** The two model families of the last [if]/[else if] chain of
    [set_input]. *)
Definition is_velocity_model (t : VehicleModelType) : bool :=
  match t with
  | IDEAL_STEER_VEL | DELAY_STEER_VEL => true
  | _ => false
  end.

Definition is_acceleration_model (t : VehicleModelType) : bool :=
  match t with
  | IDEAL_STEER_ACC | DELAY_STEER_ACC
  | IDEAL_STEER_ACC_GEARED | DELAY_STEER_ACC_GEARED => true
  | _ => false
  end.

Section SetInput.

(** The constants [GearCommand::NONE], [GearCommand::REVERSE] and
    [GearCommand::REVERSE_2] of the gear message ([uint8] values declared
    with the message, outside this file). *)
Variables NONE REVERSE REVERSE_2 : Z.

(** The local [acc] of [set_input]:
<<
    float acc = accel + acc_by_slope;
    if (gear == GearCommand::NONE) {
      acc = 0.0;
    } else if (gear == GearCommand::REVERSE || gear == GearCommand::REVERSE_2) {
      acc = -accel - acc_by_slope;
    }
>>
    [accel] is a [float] and [acc_by_slope] a [double]: each right-hand side
    is computed in [double] and converted to the [float] [acc]. *)
Definition input_acc (gear : Z) (accel : float) (acc_by_slope : double) : float :=
  let acc := to_float (dadd (to_double accel) acc_by_slope) in
  if (gear =? NONE)%Z then to_float dzero
  else if ((gear =? REVERSE) || (gear =? REVERSE_2))%Z
       then to_float (dsub (to_double (fopp accel)) acc_by_slope)
       else acc.

(** [SimplePlanningSimulator::set_input]; [input << a, b] stores the two
    [float] values as [double]. *)
Definition set_input (sim : Simulator) (cmd : AckermannControlCommand)
    (acc_by_slope : double) : Simulator :=
  let steer := steering_tire_angle (lateral cmd) in
  let vel := speed (longitudinal cmd) in
  let accel := acceleration (longitudinal cmd) in
  let gear := getGear (vehicle_model_ptr_ sim) in
  let acc := input_acc gear accel acc_by_slope in
  let input :=
    match vehicle_model_type_ sim with
    | IDEAL_STEER_VEL | DELAY_STEER_VEL => [to_double vel; to_double steer]
    | IDEAL_STEER_ACC | DELAY_STEER_ACC => [to_double acc; to_double steer]
    | IDEAL_STEER_ACC_GEARED | DELAY_STEER_ACC_GEARED =>
        [to_double acc; to_double steer]
    end in
  {| vehicle_model_type_ := vehicle_model_type_ sim;
     vehicle_model_ptr_ := setInput input (vehicle_model_ptr_ sim) |}.

End SetInput.

(** ** Measurement noise *)

(** The messages [add_measurement_noise] updates, with the fields it reads
    or writes ([odom.pose.pose.position.x] is [pose_position_x], and so
    on).  The fields of the odometry are [float64], those of the two
    reports [float32]. *)
Record Odometry (Quaternion : Type) : Type := {
  pose_position_x : double;
  pose_position_y : double;
  pose_orientation : Quaternion;
  twist_linear_x : double;
  twist_angular_z : double
}.
Arguments pose_position_x {Quaternion} _.
Arguments pose_position_y {Quaternion} _.
Arguments pose_orientation {Quaternion} _.
Arguments twist_linear_x {Quaternion} _.
Arguments twist_angular_z {Quaternion} _.

Record VelocityReport : Set := {
  longitudinal_velocity : float;
  lateral_velocity : float;
  heading_rate : float
}.

Record SteeringReport : Set := {
  report_steering_tire_angle : float
}.

Section MeasurementNoise.

(** The random engine ([std::mt19937]) and the distributions
    ([std::normal_distribution<>], whose samples are [double]) are opaque:
    drawing from a distribution returns a sample and the engine's next
    state. *)
Variables Engine Dist : Type.
Variable draw : Dist -> Engine -> double * Engine.

(** Orientation: [tf2::getYaw] and [createQuaternionFromYaw]. *)
Variable Quaternion : Type.
Variable getYaw : Quaternion -> double.
Variable createQuaternionFromYaw : double -> Quaternion.

(** The struct [measurement_noise_] without its engine, which is threaded
    through the calls. *)
Record MeasurementNoise : Type := {
  pos_dist_ : Dist;
  vel_dist_ : Dist;
  rpy_dist_ : Dist;
  steer_dist_ : Dist
}.

(** Computations that use the shared random engine. *)
Definition Rand (A : Type) : Type := Engine -> A * Engine.

Definition ret {A} (a : A) : Rand A := fun e => (a, e).

Definition bind {A B} (m : Rand A) (k : A -> Rand B) : Rand B :=
  fun e => let (a, e') := m e in k a e'.

Notation "'let*' x := m 'in' k" := (bind m (fun x => k))
  (at level 10, x name, m at level 100, k at level 200).

Definition sample (d : Dist) : Rand double := draw d.

(** [SimplePlanningSimulator::add_measurement_noise]; the three messages
    passed by reference are returned updated.  The yaw noise is cast to
    [float] before it is added; the two reports are [float] fields to which
    a [double] is added, so the sum is formed in [double] and converted. *)
Definition add_measurement_noise (n : MeasurementNoise)
    (odom : Odometry Quaternion) (vel : VelocityReport) (steer : SteeringReport)
  : Rand (Odometry Quaternion * VelocityReport * SteeringReport) :=
  let* nx := sample (pos_dist_ n) in
  let* ny := sample (pos_dist_ n) in
  let* velocity_noise := sample (vel_dist_ n) in
  let* nyaw := sample (rpy_dist_ n) in
  let yaw := dadd (getYaw (pose_orientation odom)) (to_double (to_float nyaw)) in
  let odom' :=
    {| pose_position_x := dadd (pose_position_x odom) nx;
       pose_position_y := dadd (pose_position_y odom) ny;
       pose_orientation := createQuaternionFromYaw yaw;
       twist_linear_x := dadd (twist_linear_x odom) velocity_noise;
       twist_angular_z := twist_angular_z odom |} in
  let vel' :=
    {| longitudinal_velocity :=
         to_float (dadd (to_double (longitudinal_velocity vel)) velocity_noise);
       lateral_velocity := lateral_velocity vel;
       heading_rate := heading_rate vel |} in
  let* nsteer := sample (steer_dist_ n) in
  let steer' :=
    {| report_steering_tire_angle :=
         to_float (dadd (to_double (report_steering_tire_angle steer)) nsteer) |} in
  ret (odom', vel', steer').

(** The sample [add_measurement_noise] uses as [velocity_noise]: the third
    draw, after the two position draws. *)
Definition velocity_noise_of (n : MeasurementNoise) (e : Engine) : double :=
  let e1 := snd (draw (pos_dist_ n) e) in
  let e2 := snd (draw (pos_dist_ n) e1) in
  fst (draw (vel_dist_ n) e2).

End MeasurementNoise.

End SimplePlanningSimulator.


(* ===================================================================== *)
(** * The intersection module: data types of [util_type.hpp]             *)
(* ===================================================================== *)

Module Intersection.

Local Open Scope Z_scope.

(** ** Geometry and message carriers

    Polygons and poses are kept as plain data; the geometric predicates over
    them (point in polygon, polygon overlap) are parameters of the sections
    that need them. *)

Record Point : Set := { x : Q; y : Q; z : Q }.

Record Quaternion : Set := { qx : Q; qy : Q; qz : Q; qw : Q }.

Record Pose : Set := { position : Point; orientation : Quaternion }.

(** [lanelet::CompoundPolygon3d], [geometry_msgs::msg::Polygon] and
    [Polygon2d]: the list of vertices. *)
Definition CompoundPolygon3d : Set := list Point.
Definition Polygon : Set := list Point.
Definition Polygon2d : Set := list Point.
Definition ConstLineString2d : Set := list Point.

(** [lanelet::ConstLanelet]: its id and its polygon. *)
Record ConstLanelet : Set := {
  lanelet_id : Z;
  polygon3d : CompoundPolygon3d
}.

Definition ConstLanelets : Set := list ConstLanelet.

(** A point of [PathWithLaneId].  The pose of the point is represented by
    its arc-length coordinate: the distance from the start of the path,
    measured along the path. *)
Record PathPointWithLaneId : Set := {
  arc_length : Q;
  longitudinal_velocity_mps : Q;
  lane_ids : list Z
}.

Definition PathWithLaneId : Set := list PathPointWithLaneId.

(** A predicted object: its speed and its current footprint. *)
Record PredictedObject : Set := {
  object_velocity : Q;
  object_footprint : Polygon2d
}.

Definition PredictedObjects : Set := list PredictedObject.

(** ** [struct DebugData] *)
Record DebugData : Set := {
  collision_stop_wall_pose : option Pose;
  occlusion_stop_wall_pose : option Pose;
  occlusion_first_stop_wall_pose : option Pose;
  pass_judge_wall_pose : option Pose;
  debug_attention_area : option (list CompoundPolygon3d);
  intersection_area : option Polygon;
  ego_lane : option CompoundPolygon3d;
  debug_adjacent_area : option (list CompoundPolygon3d);
  stuck_vehicle_detect_area : option Polygon;
  candidate_collision_ego_lane_polygon : option Polygon;
  candidate_collision_object_polygons : list Polygon;
  conflicting_targets : PredictedObjects;
  stuck_targets : PredictedObjects;
  occlusion_polygons : list Polygon;
  nearest_occlusion_projection : option (Point * Point)
}.

(** ** [struct InterpolatedPathInfo] *)
Record InterpolatedPathInfo : Type := {
  path : PathWithLaneId;
  ds : Q;
  lane_id : Z;
  associative_lane_ids : gset Z;
  lane_id_interval : option (Z * Z)
}.

(** ** [struct IntersectionLanelets] *)
Record IntersectionLanelets : Set := {
  attention_ : ConstLanelets;
  attention_non_preceding_ : ConstLanelets;
  conflicting_ : ConstLanelets;
  adjacent_ : ConstLanelets;
  occlusion_attention_ : ConstLanelets;
  attention_area_ : list CompoundPolygon3d;
  attention_non_preceding_area_ : list CompoundPolygon3d;
  conflicting_area_ : list CompoundPolygon3d;
  adjacent_area_ : list CompoundPolygon3d;
  occlusion_attention_area_ : list CompoundPolygon3d;
  is_prioritized_ : bool;
  first_conflicting_area_ : option CompoundPolygon3d;
  first_attention_area_ : option CompoundPolygon3d
}.

(** The inline accessors, as written in the struct. *)
Definition attention (l : IntersectionLanelets) : ConstLanelets :=
  if is_prioritized_ l then attention_non_preceding_ l else attention_ l.

Definition conflicting (l : IntersectionLanelets) : ConstLanelets :=
  conflicting_ l.

Definition adjacent (l : IntersectionLanelets) : ConstLanelets :=
  adjacent_ l.

Definition occlusion_attention (l : IntersectionLanelets) : ConstLanelets :=
  if is_prioritized_ l then attention_non_preceding_ l else occlusion_attention_ l.

Definition attention_area (l : IntersectionLanelets) : list CompoundPolygon3d :=
  if is_prioritized_ l then attention_non_preceding_area_ l else attention_area_ l.

Definition conflicting_area (l : IntersectionLanelets) : list CompoundPolygon3d :=
  conflicting_area_ l.

Definition adjacent_area (l : IntersectionLanelets) : list CompoundPolygon3d :=
  adjacent_area_ l.

Definition occlusion_attention_area (l : IntersectionLanelets)
  : list CompoundPolygon3d :=
  occlusion_attention_area_ l.

Definition first_conflicting_area (l : IntersectionLanelets)
  : option CompoundPolygon3d :=
  first_conflicting_area_ l.

Definition first_attention_area (l : IntersectionLanelets)
  : option CompoundPolygon3d :=
  first_attention_area_ l.

(** ** [struct DiscretizedLane] *)
Record DiscretizedLane : Set := {
  discretized_lane_id : Z;
  divisions : list ConstLineString2d
}.

(** ** [struct IntersectionStopLines] *)
Record IntersectionStopLines : Set := {
  closest_idx : Z;
  stuck_stop_line : option Z;
  default_stop_line : option Z;
  first_attention_stop_line : option Z;
  occlusion_peeking_stop_line : option Z;
  pass_judge_line : Z
}.

(** The value the member initialisers of the struct give. *)
Definition IntersectionStopLines_default : IntersectionStopLines :=
  {| closest_idx := 0;
     stuck_stop_line := None;
     default_stop_line := None;
     first_attention_stop_line := None;
     occlusion_peeking_stop_line := None;
     pass_judge_line := 0 |}.

(** The members of the struct by name.  [field_type] is the type the struct
    declares for a member ([std::optional<size_t>] or [size_t]) and
    [get_field] reads it, so the table cannot disagree with the record. *)
Inductive StopLineField : Set :=
| F_closest_idx
| F_stuck_stop_line
| F_default_stop_line
| F_first_attention_stop_line
| F_occlusion_peeking_stop_line
| F_pass_judge_line.

Definition stop_line_fields : list StopLineField :=
  [F_closest_idx; F_stuck_stop_line; F_default_stop_line;
   F_first_attention_stop_line; F_occlusion_peeking_stop_line;
   F_pass_judge_line].

Definition field_is_optional (f : StopLineField) : bool :=
  match f with
  | F_closest_idx | F_pass_judge_line => false
  | _ => true
  end.

Definition field_type (f : StopLineField) : Set :=
  if field_is_optional f then option Z else Z.

Definition get_field (f : StopLineField) (s : IntersectionStopLines)
  : field_type f :=
  match f as f0 return field_type f0 with
  | F_closest_idx => closest_idx s
  | F_stuck_stop_line => stuck_stop_line s
  | F_default_stop_line => default_stop_line s
  | F_first_attention_stop_line => first_attention_stop_line s
  | F_occlusion_peeking_stop_line => occlusion_peeking_stop_line s
  | F_pass_judge_line => pass_judge_line s
  end.

Definition optional_fields : list StopLineField :=
  filter (fun f => field_is_optional f = true) stop_line_fields.

Definition mandatory_fields : list StopLineField :=
  filter (fun f => field_is_optional f = false) stop_line_fields.

(** ** [struct PathLanelets] *)
Record PathLanelets : Set := {
  prev : ConstLanelets;
  ego_or_entry2exit : ConstLanelet;
  next : option ConstLanelet;
  all : ConstLanelets;
  conflicting_interval_and_remaining : ConstLanelets
}.

(** ** [enum class TrafficPrioritizedLevel] *)
Inductive TrafficPrioritizedLevel : Set :=
| FULLY_PRIORITIZED
| PARTIALLY_PRIORITIZED
| NOT_PRIORITIZED.

(** The enumerator values: [FULLY_PRIORITIZED = 0] and the next two in
    sequence. *)
Definition level_value (l : TrafficPrioritizedLevel) : Z :=
  match l with
  | FULLY_PRIORITIZED => 0
  | PARTIALLY_PRIORITIZED => 1
  | NOT_PRIORITIZED => 2
  end.

(* ===================================================================== *)
(** * The intersection module: the functions declared in [util.hpp]      *)
(* ===================================================================== *)

(** [util.hpp] declares these functions and defines none of them.  Each one
    below is modelled from the specification of the module, and its comment
    quotes the sentences it follows. *)

(** ** Polygons along the path *)

(** Modelled from the spec: the path point at index [i], when [i] is an
    index of the path. *)
Definition point_at (p : PathWithLaneId) (i : Z) : option PathPointWithLaneId :=
  if i <? 0 then None else p !! Z.to_nat i.

(** Modelled from the spec: the indices [a], [a + 1], ..., [b] of a lane
    interval. *)
Definition index_range (a b : Z) : list Z :=
  List.map (fun k : nat => a + Z.of_nat k) (seq 0 (Z.to_nat (b - a + 1))).

Section Polygons.

(** Whether a path point lies inside a polygon (a geometric test of the
    libraries the module builds on). *)
Variable within : PathPointWithLaneId -> CompoundPolygon3d -> bool.

(** Modelled from the spec: whether the path point at index [i] is inside
    the polygon. *)
Definition inside_at (p : PathWithLaneId) (polygon : CompoundPolygon3d)
    (i : Z) : bool :=
  match point_at p i with
  | Some pt => within pt polygon
  | None => false
  end.

(** Modelled from the spec: [getFirstPointInsidePolygon] (body missing).
    "locate the first path index that enters it", searching "within the
    relevant lane interval"; with [search_forward] unset the interval is
    searched from its far end. *)
Definition getFirstPointInsidePolygon (p : PathWithLaneId)
    (lane_interval : Z * Z) (polygon : CompoundPolygon3d)
    (search_forward : bool) : option Z :=
  let idxs := index_range (fst lane_interval) (snd lane_interval) in
  List.find (inside_at p polygon) (if search_forward then idxs else rev idxs).

(** ** Stop lines *)

(** Modelled from the spec: the part of [PlannerData] the stop-line
    planner reads (the type is declared elsewhere), "current ego pose and
    closest-path-index" and the "map-declared stop line position if
    present", both as indices of the interpolated path. *)
Record PlannerData : Set := {
  ego_closest_idx : Z;
  map_stop_line_idx : option Z
}.

(** Modelled from the spec: an index computed as a signed [int] becomes a
    stop line when it is not negative; a field is null on a "negative
    computed offset". *)
Definition non_negative (i : option Z) : option Z :=
  match i with
  | Some v => if v <? 0 then None else Some v
  | None => None
  end.

(** Modelled from the spec: [generateStuckStopLine] (body missing).
    "given the first conflicting-area polygon, locate the first path index
    that enters it; if [use_stuck_stopline] is set, place the stop index at
    the start of the intersection lane itself rather than at the polygon
    boundary.  Returns nothing if the conflicting polygon never intersects
    the path within the relevant lane interval."  The safety margin is
    applied by [generateIntersectionStopLines]. *)
Definition generateStuckStopLine (first_conflicting_area : CompoundPolygon3d)
    (interpolated_path_info : InterpolatedPathInfo)
    (use_stuck_stopline : bool) : option Z :=
  match lane_id_interval interpolated_path_info with
  | None => None
  | Some interval =>
      match getFirstPointInsidePolygon (path interpolated_path_info) interval
              first_conflicting_area true with
      | None => None
      | Some entry => Some (if use_stuck_stopline then fst interval else entry)
      end
  end.

(** Modelled from the spec: the signed indices
    [generateIntersectionStopLines] computes before it decides which fields
    are present. *)
Record StopLineIndices : Set := {
  stuck_int : option Z;
  default_int : option Z;
  first_attention_int : option Z;
  occlusion_peeking_int : option Z;
  pass_judge_int : Z
}.

(** Modelled from the spec: "Every offset conversion from a metric margin
    to a path index must round toward the conservative (earlier-stopping)
    direction"; a backward offset is rounded up, a forward offset is rounded
    down. *)
Definition backward_index_offset (margin ds : Q) : Z := Qceiling (margin / ds).
Definition forward_index_offset (offset ds : Q) : Z := Qfloor (offset / ds).

(** Modelled from the spec: the five indices of section 4.4, computed "in
    order" as signed integers; each is preceded by the sentence it
    follows. *)
Definition stopLineIndices (first_conflicting_area first_detection_area : CompoundPolygon3d)
    (planner_data : PlannerData) (info : InterpolatedPathInfo)
    (interval : Z * Z) (use_stuck_stopline : bool)
    (stop_line_margin peeking_offset : Q) : StopLineIndices :=
  let margin_idx := backward_index_offset stop_line_margin (ds info) in
  let peeking_idx := forward_index_offset peeking_offset (ds info) in
  let conflicting_entry :=
    getFirstPointInsidePolygon (path info) interval first_conflicting_area true in
  let attention_entry :=
    getFirstPointInsidePolygon (path info) interval first_detection_area true in
  let attention_far :=
    getFirstPointInsidePolygon (path info) interval first_detection_area false in
  (* "the stuck stop line (delegating to the above, offset backward by a
     safety margin, clamped to not exceed the attention-area entry point)" *)
  let stuck :=
    match generateStuckStopLine first_conflicting_area info use_stuck_stopline with
    | None => None
    | Some s =>
        match attention_entry with
        | Some a => Some (Z.min (s - margin_idx) a)
        | None => Some (s - margin_idx)
        end
    end in
  (* "the default stop line (map-declared stop line position if present and
     forward of the stuck line, else the conflicting-area entry offset
     backward by the margin)" *)
  let from_conflicting_area :=
    match conflicting_entry with
    | Some e => Some (e - margin_idx)
    | None => None
    end in
  let default :=
    match map_stop_line_idx planner_data with
    | Some m =>
        match stuck with
        | Some s => if s <=? m then Some m else from_conflicting_area
        | None => Some m
        end
    | None => from_conflicting_area
    end in
  (* "the first-attention stop line (entry point into the first detection
     polygon, offset by margin, ...)" *)
  let first_attention :=
    match attention_entry with
    | Some a => Some (a - margin_idx)
    | None => None
    end in
  (* "the occlusion-peeking stop line (entry point into the detection
     polygon offset forward by a peeking distance, ..., clamped to not
     exceed the far boundary of the detection area)" *)
  let occlusion_peeking :=
    match attention_entry, attention_far with
    | Some a, Some far => Some (Z.min (a + peeking_idx) far)
    | _, _ => None
    end in
  (* "the pass-judge line ... defined as the minimum of the stuck and
     first-attention stop lines" *)
  let pass_judge :=
    match stuck, first_attention with
    | Some s, Some a => Z.min s a
    | Some s, None => s
    | None, Some a => a
    | None, None => 0
    end in
  {| stuck_int := stuck;
     default_int := default;
     first_attention_int := first_attention;
     occlusion_peeking_int := occlusion_peeking;
     pass_judge_int := pass_judge |}.

(** Modelled from the spec: [generateIntersectionStopLines] (body
    missing), section 4.4 of the specification and the notes on the fields
    of [IntersectionStopLines]: the stuck and the default stop line are
    null when computed negative, the first-attention stop line is "clamped
    non-negative", and the pass-judge line is "floored at zero".  Nothing
    is returned when the path has no lane interval.  The insertion of the
    stop points into the original path is not modelled: "All indices
    reference positions in the same interpolated path". *)
Definition generateIntersectionStopLines
    (first_conflicting_area first_detection_area : CompoundPolygon3d)
    (planner_data : PlannerData) (interpolated_path_info : InterpolatedPathInfo)
    (use_stuck_stopline : bool) (stop_line_margin peeking_offset : Q)
  : option IntersectionStopLines :=
  match lane_id_interval interpolated_path_info with
  | None => None
  | Some interval =>
      let idx := stopLineIndices first_conflicting_area first_detection_area
                   planner_data interpolated_path_info interval
                   use_stuck_stopline stop_line_margin peeking_offset in
      Some {| closest_idx := ego_closest_idx planner_data;
              stuck_stop_line := non_negative (stuck_int idx);
              default_stop_line := non_negative (default_int idx);
              first_attention_stop_line :=
                option_map (Z.max 0) (first_attention_int idx);
              occlusion_peeking_stop_line := occlusion_peeking_int idx;
              pass_judge_line := Z.max 0 (pass_judge_int idx) |}
  end.

End Polygons.

(** ** Stuck vehicles *)

Section StuckVehicle.

(** Whether two polygons overlap (a geometric test of the libraries the
    module builds on). *)
Variable intersects : Polygon2d -> Polygon2d -> bool.

(** Modelled from the spec: "classifies the object as "stuck" only if its
    speed is below a threshold and it overlaps the region". *)
Definition is_stuck_vehicle (stuck_vehicle_detect_area : Polygon2d)
    (stuck_vehicle_vel_thr : Q) (object : PredictedObject) : bool :=
  (if Qlt_le_dec (object_velocity object) stuck_vehicle_vel_thr then true else false)
  && intersects (object_footprint object) stuck_vehicle_detect_area.

(** Modelled from the spec: [checkStuckVehicleInIntersection] (body
    missing).  "for each predicted object, builds its current footprint,
    tests intersection with a detection polygon ... and classifies the
    object as "stuck" only if its speed is below a threshold and it
    overlaps the region".  The objects classified as stuck are appended to
    [stuck_targets] of the debug data, and the result tells whether there
    is one. *)
Definition checkStuckVehicleInIntersection (objects : PredictedObjects)
    (stuck_vehicle_detect_area : Polygon2d) (stuck_vehicle_vel_thr : Q)
    (debug_data : DebugData) : bool * DebugData :=
  let stuck :=
    List.filter (is_stuck_vehicle stuck_vehicle_detect_area stuck_vehicle_vel_thr)
      objects in
  (match stuck with [] => false | _ :: _ => true end,
   {| collision_stop_wall_pose := collision_stop_wall_pose debug_data;
      occlusion_stop_wall_pose := occlusion_stop_wall_pose debug_data;
      occlusion_first_stop_wall_pose := occlusion_first_stop_wall_pose debug_data;
      pass_judge_wall_pose := pass_judge_wall_pose debug_data;
      debug_attention_area := debug_attention_area debug_data;
      intersection_area := intersection_area debug_data;
      ego_lane := ego_lane debug_data;
      debug_adjacent_area := debug_adjacent_area debug_data;
      stuck_vehicle_detect_area := Intersection.stuck_vehicle_detect_area debug_data;
      candidate_collision_ego_lane_polygon :=
        candidate_collision_ego_lane_polygon debug_data;
      candidate_collision_object_polygons :=
        candidate_collision_object_polygons debug_data;
      conflicting_targets := conflicting_targets debug_data;
      stuck_targets := stuck_targets debug_data ++ stuck;
      occlusion_polygons := occlusion_polygons debug_data;
      nearest_occlusion_projection := nearest_occlusion_projection debug_data |}).

End StuckVehicle.

(** ** Traffic priority *)

(** Modelled from the spec: the signal state the traffic-signal snapshot
    returns for a lane, "color and arrow indicators" (the message types are
    declared elsewhere). *)
Inductive SignalColor : Set := RED | AMBER | GREEN | UNKNOWN.

(** Modelled from the spec: "color and arrow indicators". *)
Record TrafficSignal : Set := {
  color : SignalColor;
  arrow : bool
}.

(** Modelled from the spec: an entry of the "traffic-signal snapshot". *)
Record TrafficSignalStamped : Set := {
  stamp : Z;
  signal : TrafficSignal
}.

(** Modelled from the spec: [getTrafficPrioritizedLevel] (body missing).
    The level is "derived from the signal state of the target lane
    (red-or-arrow, amber, green respectively)"; "unknown/missing signal state
    must map to a documented default (NOT_PRIORITIZED ...)".  The snapshot is
    "keyed by lane id". *)
Definition getTrafficPrioritizedLevel (lane : ConstLanelet)
    (tl_infos : gmap Z TrafficSignalStamped) : TrafficPrioritizedLevel :=
  match tl_infos !! lanelet_id lane with
  | None => NOT_PRIORITIZED
  | Some info =>
      match color (signal info), arrow (signal info) with
      | RED, _ => FULLY_PRIORITIZED
      | _, true => FULLY_PRIORITIZED
      | AMBER, false => PARTIALLY_PRIORITIZED
      | GREEN, false => NOT_PRIORITIZED
      | UNKNOWN, false => NOT_PRIORITIZED
      end
  end.

End Intersection.

(* ===================================================================== *)
(** * A straight road: concrete inputs                                    *)
(* ===================================================================== *)

Module Scenario.

Import Intersection.

Local Open Scope Z_scope.

(** A straight path along the x axis: a point is inside a polygon when its
    abscissa lies within the x-extent of the polygon. *)
Definition within_extent (p : PathPointWithLaneId) (polygon : CompoundPolygon3d)
  : bool :=
  existsb (fun v => Qle_bool (x v) (arc_length p)) polygon
  && existsb (fun v => Qle_bool (arc_length p) (x v)) polygon.

(** The rectangle over [x0 <= x <= x1], one unit to each side of the axis. *)
Definition rectangle (x0 x1 : Q) : CompoundPolygon3d :=
  [ {| x := x0; y := -1; z := 0 |}; {| x := x1; y := -1; z := 0 |};
    {| x := x1; y := 1; z := 0 |}; {| x := x0; y := 1; z := 0 |} ].

Definition path_point (s : Z) (ids : list Z) : PathPointWithLaneId :=
  {| arc_length := inject_Z s; longitudinal_velocity_mps := 2; lane_ids := ids |}.

(** Twenty-one points one unit apart; the points 2 to 18 are on the
    intersection lane 5, the others on the lanes 4 and 6. *)
Definition straight_path : PathWithLaneId :=
  List.map (fun k : nat =>
              let s := Z.of_nat k in
              path_point s (if s <? 2 then [4] else if s <=? 18 then [5] else [6]))
           (seq 0 21).

Definition straight_info : InterpolatedPathInfo :=
  {| path := straight_path;
     ds := 1;
     lane_id := 5;
     associative_lane_ids := {[ 5 ]};
     lane_id_interval := Some (2, 18) |}.

Definition no_map_stop_line : PlannerData :=
  {| ego_closest_idx := 0; map_stop_line_idx := None |}.

(** Two crossing lanelets: the path is inside the first from 10 to 16 and
    inside the second from 12 to 18. *)
Definition crossing_lanelet : ConstLanelet :=
  {| lanelet_id := 11; polygon3d := rectangle 10 16 |}.

Definition attention_lanelet : ConstLanelet :=
  {| lanelet_id := 12; polygon3d := rectangle 12 18 |}.

(** The lanelets of an intersection with the priority flag set. *)
Definition prioritized_lanelets : IntersectionLanelets :=
  {| attention_ := [crossing_lanelet; attention_lanelet];
     attention_non_preceding_ := [attention_lanelet];
     conflicting_ := [crossing_lanelet; attention_lanelet];
     adjacent_ := [];
     occlusion_attention_ := [crossing_lanelet; attention_lanelet];
     attention_area_ := [rectangle 10 16; rectangle 12 18];
     attention_non_preceding_area_ := [rectangle 12 18];
     conflicting_area_ := [rectangle 10 16; rectangle 12 18];
     adjacent_area_ := [];
     occlusion_attention_area_ := [rectangle 10 16; rectangle 12 18];
     is_prioritized_ := true;
     first_conflicting_area_ := None;
     first_attention_area_ := None |}.

(** Objects: a slow one and a fast one over the square [0, 2] x [-1, 1],
    and overlap of polygons by their x-extents. *)
Definition overlaps_extent (a b : Polygon2d) : bool :=
  existsb (fun v => existsb (fun w => Qle_bool (x v) (x w)) b) a
  && existsb (fun v => existsb (fun w => Qle_bool (x w) (x v)) b) a.

Definition slow_object : PredictedObject :=
  {| object_velocity := 1 # 10; object_footprint := rectangle 0 2 |}.

Definition fast_object : PredictedObject :=
  {| object_velocity := 8; object_footprint := rectangle 0 2 |}.

Definition empty_debug_data : DebugData :=
  {| collision_stop_wall_pose := None;
     occlusion_stop_wall_pose := None;
     occlusion_first_stop_wall_pose := None;
     pass_judge_wall_pose := None;
     debug_attention_area := None;
     intersection_area := None;
     ego_lane := None;
     debug_adjacent_area := None;
     stuck_vehicle_detect_area := None;
     candidate_collision_ego_lane_polygon := None;
     candidate_collision_object_polygons := [];
     conflicting_targets := [];
     stuck_targets := [];
     occlusion_polygons := [];
     nearest_occlusion_projection := None |}.

(** A geared model in reverse and an ungeared one driving forward (the gear
    message has [NONE = 0], [DRIVE = 2], [REVERSE = 20] and
    [REVERSE_2 = 21]), and a command for them: steering 0.1, speed 3 and
    acceleration 1.25, as [float]. *)
Definition reversing : SimplePlanningSimulator.Simulator :=
  {| SimplePlanningSimulator.vehicle_model_type_ :=
       SimplePlanningSimulator.DELAY_STEER_ACC_GEARED;
     SimplePlanningSimulator.vehicle_model_ptr_ :=
       {| SimplePlanningSimulator.gear_ := 20;
          SimplePlanningSimulator.input_ := [IEEE754.dzero; IEEE754.dzero] |} |}.

Definition driving : SimplePlanningSimulator.Simulator :=
  {| SimplePlanningSimulator.vehicle_model_type_ :=
       SimplePlanningSimulator.IDEAL_STEER_ACC;
     SimplePlanningSimulator.vehicle_model_ptr_ :=
       {| SimplePlanningSimulator.gear_ := 2;
          SimplePlanningSimulator.input_ := [IEEE754.dzero; IEEE754.dzero] |} |}.

Definition command : SimplePlanningSimulator.AckermannControlCommand :=
  {| SimplePlanningSimulator.lateral :=
       {| SimplePlanningSimulator.steering_tire_angle :=
            IEEE754.to_float (IEEE754.double_literal 1 10) |};
     SimplePlanningSimulator.longitudinal :=
       {| SimplePlanningSimulator.speed :=
            IEEE754.to_float (IEEE754.double_of_Z 3);
          SimplePlanningSimulator.acceleration :=
            IEEE754.to_float (IEEE754.double_literal 5 4) |} |}.

(** Messages for the measurement noise: an odometry and a velocity report
    that agree on a velocity of zero, and an engine that is the list of the
    samples still to be drawn. *)
Definition still_odometry : SimplePlanningSimulator.Odometry unit :=
  {| SimplePlanningSimulator.pose_position_x := IEEE754.dzero;
     SimplePlanningSimulator.pose_position_y := IEEE754.dzero;
     SimplePlanningSimulator.pose_orientation := tt;
     SimplePlanningSimulator.twist_linear_x := IEEE754.dzero;
     SimplePlanningSimulator.twist_angular_z := IEEE754.dzero |}.

Definition still_velocity : SimplePlanningSimulator.VelocityReport :=
  {| SimplePlanningSimulator.longitudinal_velocity := IEEE754.fzero;
     SimplePlanningSimulator.lateral_velocity := IEEE754.fzero;
     SimplePlanningSimulator.heading_rate := IEEE754.fzero |}.

Definition still_steering : SimplePlanningSimulator.SteeringReport :=
  {| SimplePlanningSimulator.report_steering_tire_angle := IEEE754.fzero |}.

Definition next_sample (_ : unit) (e : list IEEE754.double)
  : IEEE754.double * list IEEE754.double :=
  (List.hd IEEE754.dzero e, List.tl e).

Definition unit_distributions : SimplePlanningSimulator.MeasurementNoise unit :=
  {| SimplePlanningSimulator.pos_dist_ := tt;
     SimplePlanningSimulator.vel_dist_ := tt;
     SimplePlanningSimulator.rpy_dist_ := tt;
     SimplePlanningSimulator.steer_dist_ := tt |}.

(** Samples of 0.1 each, as [double]. *)
Definition tenths : list IEEE754.double :=
  List.repeat (IEEE754.double_literal 1 10) 5.

End Scenario.

(* ===================================================================== *)
(** * The simulator node: callbacks and the timer                         *)
(* ===================================================================== *)

Module SimulatorNode.

Module Sim := SimplePlanningSimulator.

Import IEEE754.

(** ** Messages *)

(** [geometry_msgs::msg::Point] and the translation of a transform. *)
Record Point : Set := { px : double; py : double; pz : double }.

Record Pose (Quaternion : Type) : Type := {
  position : Point;
  orientation : Quaternion
}.
Arguments position {Quaternion} _.
Arguments orientation {Quaternion} _.

(** [Twist]: the simulator reads [linear.x] only. *)
Record Twist : Set := { linear_x : double }.

(** [PoseStamped], and what the callbacks read of a
    [PoseWithCovarianceStamped]: [header.frame_id] and the pose. *)
Record PoseStamped (Quaternion : Type) : Type := {
  frame_id : string;
  pose : Pose Quaternion
}.
Arguments frame_id {Quaternion} _.
Arguments pose {Quaternion} _.

(** [TransformStamped]: the simulator reads [transform.translation]. *)
Record TransformStamped : Set := { translation : Point }.

(** A point of the [Trajectory] message, by [pose.position]. *)
Record TrajectoryPoint : Set := { point_position : Point }.

(** The [points] of a [Trajectory] message. *)
Abbreviation Trajectory := (list TrajectoryPoint).

(** The vehicle model behind [vehicle_model_ptr_]: the gear and the input
    of [SimModelInterface], and the state vector [setState] sets. *)
Record VehicleModel : Set := {
  interface : Sim.SimModelInterface;
  state_ : list double
}.

Definition setState (state : list double) (m : VehicleModel) : VehicleModel :=
  {| interface := interface m; state_ := state |}.

Definition getGear (m : VehicleModel) : Z := Sim.getGear (interface m).

Definition setGear (gear : Z) (m : VehicleModel) : VehicleModel :=
  {| interface := Sim.setGear gear (interface m); state_ := state_ m |}.

(** ** What the node relies on

    The virtual functions of the vehicle model, the library calls and the
    constants of the messages, none of them defined in the simulator
    itself. *)
Record Env : Type := {
  (* the random engine and its distributions *)
  Engine : Type;
  Dist : Type;
  draw : Dist -> Engine -> double * Engine;
  (* orientations: [tf2::getYaw], [createQuaternionFromYaw],
     [createQuaternionFromRPY] *)
  Quaternion : Type;
  getYaw : Quaternion -> double;
  createQuaternionFromYaw : double -> Quaternion;
  createQuaternionFromRPY : double -> double -> double -> Quaternion;
  (* the getters of the vehicle model and its [update(dt)] *)
  getX : VehicleModel -> double;
  getY : VehicleModel -> double;
  getModelYaw : VehicleModel -> double;
  getVx : VehicleModel -> double;
  getWz : VehicleModel -> double;
  getSteer : VehicleModel -> double;
  getAx : VehicleModel -> double;
  update : double -> VehicleModel -> VehicleModel;
  (* the road lanelets of the map, the pitch [calculate_ego_pitch] reads off
     them for a vehicle model, and [std::sin] *)
  RoadLanelets : Type;
  calculate_ego_pitch : RoadLanelets -> VehicleModel -> double;
  sin : double -> double;
  (* the transform buffer: a lookup that may throw, and what the buffer has
     become after [rclcpp::sleep_for] of half a second *)
  TfBuffer : Type;
  lookupTransform : TfBuffer -> string -> string -> option TransformStamped;
  sleep_for : TfBuffer -> TfBuffer;
  (* message constants *)
  GearCommand_NONE : Z;
  GearCommand_REVERSE : Z;
  GearCommand_REVERSE_2 : Z;
  ControlModeReport_AUTONOMOUS : Z;
  ControlModeReport_MANUAL : Z;
  Request_AUTONOMOUS : Z;
  Request_MANUAL : Z;
  (* [XYZRPY_COV_IDX] *)
  XYZRPY_X_X : Z;
  XYZRPY_Y_Y : Z;
  XYZRPY_Z_Z : Z;
  XYZRPY_ROLL_ROLL : Z;
  XYZRPY_PITCH_PITCH : Z;
  XYZRPY_YAW_YAW : Z;
  (* [XYZ_COV_IDX] *)
  XYZ_X_X : Z;
  XYZ_Y_Y : Z;
  XYZ_Z_Z : Z
}.

(** The [Odometry] message of the node: the fields [add_measurement_noise]
    works on, the height and the pose covariance (a zero-initialised array,
    kept as the map of the entries written). *)
Record OdometryMsg (env : Env) : Type := {
  odom : Sim.Odometry (Quaternion env);
  pose_position_z : double;
  pose_covariance : gmap Z double
}.
Arguments odom {env} _.
Arguments pose_position_z {env} _.
Arguments pose_covariance {env} _.

(** What the node publishes, one constructor for each publisher.  The
    stamps, which come from the clock, are left out. *)
Inductive Published (env : Env) : Type :=
| PubOdometry (header_frame_id child_frame_id : string) (msg : OdometryMsg env)
| PubVelocity (header_frame_id : string) (msg : Sim.VelocityReport)
| PubSteering (msg : Sim.SteeringReport)
| PubAcceleration (header_frame_id : string) (accel_linear_x : double)
    (covariance : gmap Z double)
| PubImu (header_frame_id : string) (linear_acceleration_x : double)
    (linear_acceleration_covariance : gmap Z double) (angular_velocity_z : double)
    (angular_velocity_covariance : gmap Z double)
    (imu_orientation : Quaternion env) (orientation_covariance : gmap Z double)
| PubControlModeReport (mode : Z)
| PubGearReport (report : Z)
| PubTurnIndicatorsReport (report : Z)
| PubHazardLightsReport (report : Z)
| PubTf (header_frame_id child_frame_id : string) (transform_translation : Point)
    (transform_rotation : Quaternion env).
Arguments PubOdometry {env} _ _ _.
Arguments PubVelocity {env} _ _.
Arguments PubSteering {env} _.
Arguments PubAcceleration {env} _ _ _.
Arguments PubImu {env} _ _ _ _ _ _ _.
Arguments PubControlModeReport {env} _.
Arguments PubGearReport {env} _.
Arguments PubTurnIndicatorsReport {env} _.
Arguments PubHazardLightsReport {env} _.
Arguments PubTf {env} _ _ _ _.

(** ** The members of the node *)
Record Node (env : Env) : Type := {
  simulated_frame_id_ : string;
  origin_frame_id_ : string;
  add_measurement_noise_ : bool;
  simulate_motion_ : bool;
  enable_road_slope_simulation_ : bool;
  x_stddev_ : double;
  y_stddev_ : double;
  measurement_noise_ : Sim.MeasurementNoise (Dist env);
  rand_engine_ : Engine env;
  is_initialized_ : bool;
  vehicle_model_type_ : Sim.VehicleModelType;
  vehicle_model_ptr_ : VehicleModel;
  road_lanelets_ : RoadLanelets env;
  tf_buffer_ : TfBuffer env;
  current_ackermann_cmd_ : Sim.AckermannControlCommand;
  current_manual_ackermann_cmd_ : Sim.AckermannControlCommand;
  current_gear_cmd_ : Z;
  current_manual_gear_cmd_ : Z;
  current_control_mode_ : Z;
  current_turn_indicators_cmd_ptr_ : option Z;
  current_hazard_lights_cmd_ptr_ : option Z;
  current_trajectory_ptr_ : option Trajectory;
  initial_pose_ : option (PoseStamped (Quaternion env));
  initial_twist_ : Twist;
  current_odometry_ : OdometryMsg env;
  current_velocity_ : Sim.VelocityReport;
  current_steer_ : Sim.SteeringReport
}.
Arguments simulated_frame_id_ {env} _.
Arguments origin_frame_id_ {env} _.
Arguments add_measurement_noise_ {env} _.
Arguments simulate_motion_ {env} _.
Arguments enable_road_slope_simulation_ {env} _.
Arguments x_stddev_ {env} _.
Arguments y_stddev_ {env} _.
Arguments measurement_noise_ {env} _.
Arguments rand_engine_ {env} _.
Arguments is_initialized_ {env} _.
Arguments vehicle_model_type_ {env} _.
Arguments vehicle_model_ptr_ {env} _.
Arguments road_lanelets_ {env} _.
Arguments tf_buffer_ {env} _.
Arguments current_ackermann_cmd_ {env} _.
Arguments current_manual_ackermann_cmd_ {env} _.
Arguments current_gear_cmd_ {env} _.
Arguments current_manual_gear_cmd_ {env} _.
Arguments current_control_mode_ {env} _.
Arguments current_turn_indicators_cmd_ptr_ {env} _.
Arguments current_hazard_lights_cmd_ptr_ {env} _.
Arguments current_trajectory_ptr_ {env} _.
Arguments initial_pose_ {env} _.
Arguments initial_twist_ {env} _.
Arguments current_odometry_ {env} _.
Arguments current_velocity_ {env} _.
Arguments current_steer_ {env} _.

Section NodeUpdates.

Context {env : Env}.

(** Assignments to single members. *)
Definition set_vehicle_model (m : VehicleModel) (n : Node env) : Node env :=
  {| simulated_frame_id_ := simulated_frame_id_ n;
     origin_frame_id_ := origin_frame_id_ n;
     add_measurement_noise_ := add_measurement_noise_ n;
     simulate_motion_ := simulate_motion_ n;
     enable_road_slope_simulation_ := enable_road_slope_simulation_ n;
     x_stddev_ := x_stddev_ n;
     y_stddev_ := y_stddev_ n;
     measurement_noise_ := measurement_noise_ n;
     rand_engine_ := rand_engine_ n;
     is_initialized_ := is_initialized_ n;
     vehicle_model_type_ := vehicle_model_type_ n;
     vehicle_model_ptr_ := m;
     road_lanelets_ := road_lanelets_ n;
     tf_buffer_ := tf_buffer_ n;
     current_ackermann_cmd_ := current_ackermann_cmd_ n;
     current_manual_ackermann_cmd_ := current_manual_ackermann_cmd_ n;
     current_gear_cmd_ := current_gear_cmd_ n;
     current_manual_gear_cmd_ := current_manual_gear_cmd_ n;
     current_control_mode_ := current_control_mode_ n;
     current_turn_indicators_cmd_ptr_ := current_turn_indicators_cmd_ptr_ n;
     current_hazard_lights_cmd_ptr_ := current_hazard_lights_cmd_ptr_ n;
     current_trajectory_ptr_ := current_trajectory_ptr_ n;
     initial_pose_ := initial_pose_ n;
     initial_twist_ := initial_twist_ n;
     current_odometry_ := current_odometry_ n;
     current_velocity_ := current_velocity_ n;
     current_steer_ := current_steer_ n |}.

Definition set_is_initialized (b : bool) (n : Node env) : Node env :=
  {| simulated_frame_id_ := simulated_frame_id_ n;
     origin_frame_id_ := origin_frame_id_ n;
     add_measurement_noise_ := add_measurement_noise_ n;
     simulate_motion_ := simulate_motion_ n;
     enable_road_slope_simulation_ := enable_road_slope_simulation_ n;
     x_stddev_ := x_stddev_ n;
     y_stddev_ := y_stddev_ n;
     measurement_noise_ := measurement_noise_ n;
     rand_engine_ := rand_engine_ n;
     is_initialized_ := b;
     vehicle_model_type_ := vehicle_model_type_ n;
     vehicle_model_ptr_ := vehicle_model_ptr_ n;
     road_lanelets_ := road_lanelets_ n;
     tf_buffer_ := tf_buffer_ n;
     current_ackermann_cmd_ := current_ackermann_cmd_ n;
     current_manual_ackermann_cmd_ := current_manual_ackermann_cmd_ n;
     current_gear_cmd_ := current_gear_cmd_ n;
     current_manual_gear_cmd_ := current_manual_gear_cmd_ n;
     current_control_mode_ := current_control_mode_ n;
     current_turn_indicators_cmd_ptr_ := current_turn_indicators_cmd_ptr_ n;
     current_hazard_lights_cmd_ptr_ := current_hazard_lights_cmd_ptr_ n;
     current_trajectory_ptr_ := current_trajectory_ptr_ n;
     initial_pose_ := initial_pose_ n;
     initial_twist_ := initial_twist_ n;
     current_odometry_ := current_odometry_ n;
     current_velocity_ := current_velocity_ n;
     current_steer_ := current_steer_ n |}.

Definition set_simulate_motion (b : bool) (n : Node env) : Node env :=
  {| simulated_frame_id_ := simulated_frame_id_ n;
     origin_frame_id_ := origin_frame_id_ n;
     add_measurement_noise_ := add_measurement_noise_ n;
     simulate_motion_ := b;
     enable_road_slope_simulation_ := enable_road_slope_simulation_ n;
     x_stddev_ := x_stddev_ n;
     y_stddev_ := y_stddev_ n;
     measurement_noise_ := measurement_noise_ n;
     rand_engine_ := rand_engine_ n;
     is_initialized_ := is_initialized_ n;
     vehicle_model_type_ := vehicle_model_type_ n;
     vehicle_model_ptr_ := vehicle_model_ptr_ n;
     road_lanelets_ := road_lanelets_ n;
     tf_buffer_ := tf_buffer_ n;
     current_ackermann_cmd_ := current_ackermann_cmd_ n;
     current_manual_ackermann_cmd_ := current_manual_ackermann_cmd_ n;
     current_gear_cmd_ := current_gear_cmd_ n;
     current_manual_gear_cmd_ := current_manual_gear_cmd_ n;
     current_control_mode_ := current_control_mode_ n;
     current_turn_indicators_cmd_ptr_ := current_turn_indicators_cmd_ptr_ n;
     current_hazard_lights_cmd_ptr_ := current_hazard_lights_cmd_ptr_ n;
     current_trajectory_ptr_ := current_trajectory_ptr_ n;
     initial_pose_ := initial_pose_ n;
     initial_twist_ := initial_twist_ n;
     current_odometry_ := current_odometry_ n;
     current_velocity_ := current_velocity_ n;
     current_steer_ := current_steer_ n |}.

Definition set_tf_buffer (b : TfBuffer env) (n : Node env) : Node env :=
  {| simulated_frame_id_ := simulated_frame_id_ n;
     origin_frame_id_ := origin_frame_id_ n;
     add_measurement_noise_ := add_measurement_noise_ n;
     simulate_motion_ := simulate_motion_ n;
     enable_road_slope_simulation_ := enable_road_slope_simulation_ n;
     x_stddev_ := x_stddev_ n;
     y_stddev_ := y_stddev_ n;
     measurement_noise_ := measurement_noise_ n;
     rand_engine_ := rand_engine_ n;
     is_initialized_ := is_initialized_ n;
     vehicle_model_type_ := vehicle_model_type_ n;
     vehicle_model_ptr_ := vehicle_model_ptr_ n;
     road_lanelets_ := road_lanelets_ n;
     tf_buffer_ := b;
     current_ackermann_cmd_ := current_ackermann_cmd_ n;
     current_manual_ackermann_cmd_ := current_manual_ackermann_cmd_ n;
     current_gear_cmd_ := current_gear_cmd_ n;
     current_manual_gear_cmd_ := current_manual_gear_cmd_ n;
     current_control_mode_ := current_control_mode_ n;
     current_turn_indicators_cmd_ptr_ := current_turn_indicators_cmd_ptr_ n;
     current_hazard_lights_cmd_ptr_ := current_hazard_lights_cmd_ptr_ n;
     current_trajectory_ptr_ := current_trajectory_ptr_ n;
     initial_pose_ := initial_pose_ n;
     initial_twist_ := initial_twist_ n;
     current_odometry_ := current_odometry_ n;
     current_velocity_ := current_velocity_ n;
     current_steer_ := current_steer_ n |}.

Definition set_control_mode (mode : Z) (n : Node env) : Node env :=
  {| simulated_frame_id_ := simulated_frame_id_ n;
     origin_frame_id_ := origin_frame_id_ n;
     add_measurement_noise_ := add_measurement_noise_ n;
     simulate_motion_ := simulate_motion_ n;
     enable_road_slope_simulation_ := enable_road_slope_simulation_ n;
     x_stddev_ := x_stddev_ n;
     y_stddev_ := y_stddev_ n;
     measurement_noise_ := measurement_noise_ n;
     rand_engine_ := rand_engine_ n;
     is_initialized_ := is_initialized_ n;
     vehicle_model_type_ := vehicle_model_type_ n;
     vehicle_model_ptr_ := vehicle_model_ptr_ n;
     road_lanelets_ := road_lanelets_ n;
     tf_buffer_ := tf_buffer_ n;
     current_ackermann_cmd_ := current_ackermann_cmd_ n;
     current_manual_ackermann_cmd_ := current_manual_ackermann_cmd_ n;
     current_gear_cmd_ := current_gear_cmd_ n;
     current_manual_gear_cmd_ := current_manual_gear_cmd_ n;
     current_control_mode_ := mode;
     current_turn_indicators_cmd_ptr_ := current_turn_indicators_cmd_ptr_ n;
     current_hazard_lights_cmd_ptr_ := current_hazard_lights_cmd_ptr_ n;
     current_trajectory_ptr_ := current_trajectory_ptr_ n;
     initial_pose_ := initial_pose_ n;
     initial_twist_ := initial_twist_ n;
     current_odometry_ := current_odometry_ n;
     current_velocity_ := current_velocity_ n;
     current_steer_ := current_steer_ n |}.

Definition set_initial_pose (p : option (PoseStamped (Quaternion env)))
    (n : Node env) : Node env :=
  {| simulated_frame_id_ := simulated_frame_id_ n;
     origin_frame_id_ := origin_frame_id_ n;
     add_measurement_noise_ := add_measurement_noise_ n;
     simulate_motion_ := simulate_motion_ n;
     enable_road_slope_simulation_ := enable_road_slope_simulation_ n;
     x_stddev_ := x_stddev_ n;
     y_stddev_ := y_stddev_ n;
     measurement_noise_ := measurement_noise_ n;
     rand_engine_ := rand_engine_ n;
     is_initialized_ := is_initialized_ n;
     vehicle_model_type_ := vehicle_model_type_ n;
     vehicle_model_ptr_ := vehicle_model_ptr_ n;
     road_lanelets_ := road_lanelets_ n;
     tf_buffer_ := tf_buffer_ n;
     current_ackermann_cmd_ := current_ackermann_cmd_ n;
     current_manual_ackermann_cmd_ := current_manual_ackermann_cmd_ n;
     current_gear_cmd_ := current_gear_cmd_ n;
     current_manual_gear_cmd_ := current_manual_gear_cmd_ n;
     current_control_mode_ := current_control_mode_ n;
     current_turn_indicators_cmd_ptr_ := current_turn_indicators_cmd_ptr_ n;
     current_hazard_lights_cmd_ptr_ := current_hazard_lights_cmd_ptr_ n;
     current_trajectory_ptr_ := current_trajectory_ptr_ n;
     initial_pose_ := p;
     initial_twist_ := initial_twist_ n;
     current_odometry_ := current_odometry_ n;
     current_velocity_ := current_velocity_ n;
     current_steer_ := current_steer_ n |}.

Definition set_initial_twist (t : Twist) (n : Node env) : Node env :=
  {| simulated_frame_id_ := simulated_frame_id_ n;
     origin_frame_id_ := origin_frame_id_ n;
     add_measurement_noise_ := add_measurement_noise_ n;
     simulate_motion_ := simulate_motion_ n;
     enable_road_slope_simulation_ := enable_road_slope_simulation_ n;
     x_stddev_ := x_stddev_ n;
     y_stddev_ := y_stddev_ n;
     measurement_noise_ := measurement_noise_ n;
     rand_engine_ := rand_engine_ n;
     is_initialized_ := is_initialized_ n;
     vehicle_model_type_ := vehicle_model_type_ n;
     vehicle_model_ptr_ := vehicle_model_ptr_ n;
     road_lanelets_ := road_lanelets_ n;
     tf_buffer_ := tf_buffer_ n;
     current_ackermann_cmd_ := current_ackermann_cmd_ n;
     current_manual_ackermann_cmd_ := current_manual_ackermann_cmd_ n;
     current_gear_cmd_ := current_gear_cmd_ n;
     current_manual_gear_cmd_ := current_manual_gear_cmd_ n;
     current_control_mode_ := current_control_mode_ n;
     current_turn_indicators_cmd_ptr_ := current_turn_indicators_cmd_ptr_ n;
     current_hazard_lights_cmd_ptr_ := current_hazard_lights_cmd_ptr_ n;
     current_trajectory_ptr_ := current_trajectory_ptr_ n;
     initial_pose_ := initial_pose_ n;
     initial_twist_ := t;
     current_odometry_ := current_odometry_ n;
     current_velocity_ := current_velocity_ n;
     current_steer_ := current_steer_ n |}.

(** The measurements of one tick, with the random engine they used. *)
Definition set_measurements (o : OdometryMsg env) (v : Sim.VelocityReport)
    (s : Sim.SteeringReport) (e : Engine env) (n : Node env) : Node env :=
  {| simulated_frame_id_ := simulated_frame_id_ n;
     origin_frame_id_ := origin_frame_id_ n;
     add_measurement_noise_ := add_measurement_noise_ n;
     simulate_motion_ := simulate_motion_ n;
     enable_road_slope_simulation_ := enable_road_slope_simulation_ n;
     x_stddev_ := x_stddev_ n;
     y_stddev_ := y_stddev_ n;
     measurement_noise_ := measurement_noise_ n;
     rand_engine_ := e;
     is_initialized_ := is_initialized_ n;
     vehicle_model_type_ := vehicle_model_type_ n;
     vehicle_model_ptr_ := vehicle_model_ptr_ n;
     road_lanelets_ := road_lanelets_ n;
     tf_buffer_ := tf_buffer_ n;
     current_ackermann_cmd_ := current_ackermann_cmd_ n;
     current_manual_ackermann_cmd_ := current_manual_ackermann_cmd_ n;
     current_gear_cmd_ := current_gear_cmd_ n;
     current_manual_gear_cmd_ := current_manual_gear_cmd_ n;
     current_control_mode_ := current_control_mode_ n;
     current_turn_indicators_cmd_ptr_ := current_turn_indicators_cmd_ptr_ n;
     current_hazard_lights_cmd_ptr_ := current_hazard_lights_cmd_ptr_ n;
     current_trajectory_ptr_ := current_trajectory_ptr_ n;
     initial_pose_ := initial_pose_ n;
     initial_twist_ := initial_twist_ n;
     current_odometry_ := o;
     current_velocity_ := v;
     current_steer_ := s |}.

(** The subscription to the control command: [current_ackermann_cmd_ = *msg]. *)
Definition on_ackermann_cmd (msg : Sim.AckermannControlCommand) (n : Node env) : Node env :=
  {| simulated_frame_id_ := simulated_frame_id_ n;
     origin_frame_id_ := origin_frame_id_ n;
     add_measurement_noise_ := add_measurement_noise_ n;
     simulate_motion_ := simulate_motion_ n;
     enable_road_slope_simulation_ := enable_road_slope_simulation_ n;
     x_stddev_ := x_stddev_ n;
     y_stddev_ := y_stddev_ n;
     measurement_noise_ := measurement_noise_ n;
     rand_engine_ := rand_engine_ n;
     is_initialized_ := is_initialized_ n;
     vehicle_model_type_ := vehicle_model_type_ n;
     vehicle_model_ptr_ := vehicle_model_ptr_ n;
     road_lanelets_ := road_lanelets_ n;
     tf_buffer_ := tf_buffer_ n;
     current_ackermann_cmd_ := msg;
     current_manual_ackermann_cmd_ := current_manual_ackermann_cmd_ n;
     current_gear_cmd_ := current_gear_cmd_ n;
     current_manual_gear_cmd_ := current_manual_gear_cmd_ n;
     current_control_mode_ := current_control_mode_ n;
     current_turn_indicators_cmd_ptr_ := current_turn_indicators_cmd_ptr_ n;
     current_hazard_lights_cmd_ptr_ := current_hazard_lights_cmd_ptr_ n;
     current_trajectory_ptr_ := current_trajectory_ptr_ n;
     initial_pose_ := initial_pose_ n;
     initial_twist_ := initial_twist_ n;
     current_odometry_ := current_odometry_ n;
     current_velocity_ := current_velocity_ n;
     current_steer_ := current_steer_ n |}.

(** The subscription to the manual control command. *)
Definition on_manual_ackermann_cmd (msg : Sim.AckermannControlCommand) (n : Node env) : Node env :=
  {| simulated_frame_id_ := simulated_frame_id_ n;
     origin_frame_id_ := origin_frame_id_ n;
     add_measurement_noise_ := add_measurement_noise_ n;
     simulate_motion_ := simulate_motion_ n;
     enable_road_slope_simulation_ := enable_road_slope_simulation_ n;
     x_stddev_ := x_stddev_ n;
     y_stddev_ := y_stddev_ n;
     measurement_noise_ := measurement_noise_ n;
     rand_engine_ := rand_engine_ n;
     is_initialized_ := is_initialized_ n;
     vehicle_model_type_ := vehicle_model_type_ n;
     vehicle_model_ptr_ := vehicle_model_ptr_ n;
     road_lanelets_ := road_lanelets_ n;
     tf_buffer_ := tf_buffer_ n;
     current_ackermann_cmd_ := current_ackermann_cmd_ n;
     current_manual_ackermann_cmd_ := msg;
     current_gear_cmd_ := current_gear_cmd_ n;
     current_manual_gear_cmd_ := current_manual_gear_cmd_ n;
     current_control_mode_ := current_control_mode_ n;
     current_turn_indicators_cmd_ptr_ := current_turn_indicators_cmd_ptr_ n;
     current_hazard_lights_cmd_ptr_ := current_hazard_lights_cmd_ptr_ n;
     current_trajectory_ptr_ := current_trajectory_ptr_ n;
     initial_pose_ := initial_pose_ n;
     initial_twist_ := initial_twist_ n;
     current_odometry_ := current_odometry_ n;
     current_velocity_ := current_velocity_ n;
     current_steer_ := current_steer_ n |}.

(** The subscription to the gear command: [current_gear_cmd_ = *msg]. *)
Definition on_gear_cmd (msg : Z) (n : Node env) : Node env :=
  {| simulated_frame_id_ := simulated_frame_id_ n;
     origin_frame_id_ := origin_frame_id_ n;
     add_measurement_noise_ := add_measurement_noise_ n;
     simulate_motion_ := simulate_motion_ n;
     enable_road_slope_simulation_ := enable_road_slope_simulation_ n;
     x_stddev_ := x_stddev_ n;
     y_stddev_ := y_stddev_ n;
     measurement_noise_ := measurement_noise_ n;
     rand_engine_ := rand_engine_ n;
     is_initialized_ := is_initialized_ n;
     vehicle_model_type_ := vehicle_model_type_ n;
     vehicle_model_ptr_ := vehicle_model_ptr_ n;
     road_lanelets_ := road_lanelets_ n;
     tf_buffer_ := tf_buffer_ n;
     current_ackermann_cmd_ := current_ackermann_cmd_ n;
     current_manual_ackermann_cmd_ := current_manual_ackermann_cmd_ n;
     current_gear_cmd_ := msg;
     current_manual_gear_cmd_ := current_manual_gear_cmd_ n;
     current_control_mode_ := current_control_mode_ n;
     current_turn_indicators_cmd_ptr_ := current_turn_indicators_cmd_ptr_ n;
     current_hazard_lights_cmd_ptr_ := current_hazard_lights_cmd_ptr_ n;
     current_trajectory_ptr_ := current_trajectory_ptr_ n;
     initial_pose_ := initial_pose_ n;
     initial_twist_ := initial_twist_ n;
     current_odometry_ := current_odometry_ n;
     current_velocity_ := current_velocity_ n;
     current_steer_ := current_steer_ n |}.

(** The subscription to the manual gear command. *)
Definition on_manual_gear_cmd (msg : Z) (n : Node env) : Node env :=
  {| simulated_frame_id_ := simulated_frame_id_ n;
     origin_frame_id_ := origin_frame_id_ n;
     add_measurement_noise_ := add_measurement_noise_ n;
     simulate_motion_ := simulate_motion_ n;
     enable_road_slope_simulation_ := enable_road_slope_simulation_ n;
     x_stddev_ := x_stddev_ n;
     y_stddev_ := y_stddev_ n;
     measurement_noise_ := measurement_noise_ n;
     rand_engine_ := rand_engine_ n;
     is_initialized_ := is_initialized_ n;
     vehicle_model_type_ := vehicle_model_type_ n;
     vehicle_model_ptr_ := vehicle_model_ptr_ n;
     road_lanelets_ := road_lanelets_ n;
     tf_buffer_ := tf_buffer_ n;
     current_ackermann_cmd_ := current_ackermann_cmd_ n;
     current_manual_ackermann_cmd_ := current_manual_ackermann_cmd_ n;
     current_gear_cmd_ := current_gear_cmd_ n;
     current_manual_gear_cmd_ := msg;
     current_control_mode_ := current_control_mode_ n;
     current_turn_indicators_cmd_ptr_ := current_turn_indicators_cmd_ptr_ n;
     current_hazard_lights_cmd_ptr_ := current_hazard_lights_cmd_ptr_ n;
     current_trajectory_ptr_ := current_trajectory_ptr_ n;
     initial_pose_ := initial_pose_ n;
     initial_twist_ := initial_twist_ n;
     current_odometry_ := current_odometry_ n;
     current_velocity_ := current_velocity_ n;
     current_steer_ := current_steer_ n |}.

(** [on_turn_indicators_cmd], by the command of the message kept. *)
Definition on_turn_indicators_cmd (msg : Z) (n : Node env) : Node env :=
  {| simulated_frame_id_ := simulated_frame_id_ n;
     origin_frame_id_ := origin_frame_id_ n;
     add_measurement_noise_ := add_measurement_noise_ n;
     simulate_motion_ := simulate_motion_ n;
     enable_road_slope_simulation_ := enable_road_slope_simulation_ n;
     x_stddev_ := x_stddev_ n;
     y_stddev_ := y_stddev_ n;
     measurement_noise_ := measurement_noise_ n;
     rand_engine_ := rand_engine_ n;
     is_initialized_ := is_initialized_ n;
     vehicle_model_type_ := vehicle_model_type_ n;
     vehicle_model_ptr_ := vehicle_model_ptr_ n;
     road_lanelets_ := road_lanelets_ n;
     tf_buffer_ := tf_buffer_ n;
     current_ackermann_cmd_ := current_ackermann_cmd_ n;
     current_manual_ackermann_cmd_ := current_manual_ackermann_cmd_ n;
     current_gear_cmd_ := current_gear_cmd_ n;
     current_manual_gear_cmd_ := current_manual_gear_cmd_ n;
     current_control_mode_ := current_control_mode_ n;
     current_turn_indicators_cmd_ptr_ := Some msg;
     current_hazard_lights_cmd_ptr_ := current_hazard_lights_cmd_ptr_ n;
     current_trajectory_ptr_ := current_trajectory_ptr_ n;
     initial_pose_ := initial_pose_ n;
     initial_twist_ := initial_twist_ n;
     current_odometry_ := current_odometry_ n;
     current_velocity_ := current_velocity_ n;
     current_steer_ := current_steer_ n |}.

(** [on_hazard_lights_cmd], by the command of the message kept. *)
Definition on_hazard_lights_cmd (msg : Z) (n : Node env) : Node env :=
  {| simulated_frame_id_ := simulated_frame_id_ n;
     origin_frame_id_ := origin_frame_id_ n;
     add_measurement_noise_ := add_measurement_noise_ n;
     simulate_motion_ := simulate_motion_ n;
     enable_road_slope_simulation_ := enable_road_slope_simulation_ n;
     x_stddev_ := x_stddev_ n;
     y_stddev_ := y_stddev_ n;
     measurement_noise_ := measurement_noise_ n;
     rand_engine_ := rand_engine_ n;
     is_initialized_ := is_initialized_ n;
     vehicle_model_type_ := vehicle_model_type_ n;
     vehicle_model_ptr_ := vehicle_model_ptr_ n;
     road_lanelets_ := road_lanelets_ n;
     tf_buffer_ := tf_buffer_ n;
     current_ackermann_cmd_ := current_ackermann_cmd_ n;
     current_manual_ackermann_cmd_ := current_manual_ackermann_cmd_ n;
     current_gear_cmd_ := current_gear_cmd_ n;
     current_manual_gear_cmd_ := current_manual_gear_cmd_ n;
     current_control_mode_ := current_control_mode_ n;
     current_turn_indicators_cmd_ptr_ := current_turn_indicators_cmd_ptr_ n;
     current_hazard_lights_cmd_ptr_ := Some msg;
     current_trajectory_ptr_ := current_trajectory_ptr_ n;
     initial_pose_ := initial_pose_ n;
     initial_twist_ := initial_twist_ n;
     current_odometry_ := current_odometry_ n;
     current_velocity_ := current_velocity_ n;
     current_steer_ := current_steer_ n |}.

(** [on_trajectory]. *)
Definition on_trajectory (msg : Trajectory) (n : Node env) : Node env :=
  {| simulated_frame_id_ := simulated_frame_id_ n;
     origin_frame_id_ := origin_frame_id_ n;
     add_measurement_noise_ := add_measurement_noise_ n;
     simulate_motion_ := simulate_motion_ n;
     enable_road_slope_simulation_ := enable_road_slope_simulation_ n;
     x_stddev_ := x_stddev_ n;
     y_stddev_ := y_stddev_ n;
     measurement_noise_ := measurement_noise_ n;
     rand_engine_ := rand_engine_ n;
     is_initialized_ := is_initialized_ n;
     vehicle_model_type_ := vehicle_model_type_ n;
     vehicle_model_ptr_ := vehicle_model_ptr_ n;
     road_lanelets_ := road_lanelets_ n;
     tf_buffer_ := tf_buffer_ n;
     current_ackermann_cmd_ := current_ackermann_cmd_ n;
     current_manual_ackermann_cmd_ := current_manual_ackermann_cmd_ n;
     current_gear_cmd_ := current_gear_cmd_ n;
     current_manual_gear_cmd_ := current_manual_gear_cmd_ n;
     current_control_mode_ := current_control_mode_ n;
     current_turn_indicators_cmd_ptr_ := current_turn_indicators_cmd_ptr_ n;
     current_hazard_lights_cmd_ptr_ := current_hazard_lights_cmd_ptr_ n;
     current_trajectory_ptr_ := Some msg;
     initial_pose_ := initial_pose_ n;
     initial_twist_ := initial_twist_ n;
     current_odometry_ := current_odometry_ n;
     current_velocity_ := current_velocity_ n;
     current_steer_ := current_steer_ n |}.

End NodeUpdates.

Section NodeFunctions.

Context {env : Env}.

(** ** Reading the vehicle model *)

(** [to_velocity_report]: the getters return [double], the fields of the
    report are [float32]. *)
Definition to_velocity_report (m : VehicleModel) : Sim.VelocityReport :=
  {| Sim.longitudinal_velocity := to_float (getVx env m);
     Sim.lateral_velocity := fzero;
     Sim.heading_rate := to_float (getWz env m) |}.

(** [to_odometry]; the members it does not assign keep the zero of a fresh
    message. *)
Definition to_odometry (m : VehicleModel) (ego_pitch_angle : double)
  : OdometryMsg env :=
  {| odom :=
       {| Sim.pose_position_x := getX env m;
          Sim.pose_position_y := getY env m;
          Sim.pose_orientation :=
            createQuaternionFromRPY env dzero ego_pitch_angle (getModelYaw env m);
          Sim.twist_linear_x := getVx env m;
          Sim.twist_angular_z := getWz env m |};
     pose_position_z := dzero;
     pose_covariance := ∅ |}.

(** [to_steering_report]: a [double] stored in a [float32] field. *)
Definition to_steering_report (m : VehicleModel) : Sim.SteeringReport :=
  {| Sim.report_steering_tire_angle := to_float (getSteer env m) |}.

(** ** The height of the pose *)

(** The squared distance [sqrt_dist] of the loop body, in [double]
    arithmetic. *)
Definition squared_distance (p : TrajectoryPoint) (x y : double) : double :=
  let dist_x := dsub (px (point_position p)) x in
  let dist_y := dsub (py (point_position p)) y in
  dadd (dmul dist_x dist_x) (dmul dist_y dist_y).

(** The loop of [get_z_pose_from_trajectory] from index [i] on, over the
    points [points] that are left: [min_sqrt_dist] is the least distance so
    far and [index] the index it was found at, if [found]. *)
Fixpoint nearest_index_from (i : nat) (points : list TrajectoryPoint)
    (x y : double) (min_sqrt_dist : double) (index : option nat) : option nat :=
  match points with
  | [] => index
  | p :: rest =>
      let sqrt_dist := squared_distance p x y in
      if dltb sqrt_dist min_sqrt_dist
      then nearest_index_from (S i) rest x y sqrt_dist (Some i)
      else nearest_index_from (S i) rest x y min_sqrt_dist index
  end.

(** [get_z_pose_from_trajectory].  [points.at(index)] is within range, see
    [nearest_index_in_range]. *)
Definition get_z_pose_from_trajectory (n : Node env) (x y : double) : double :=
  match current_trajectory_ptr_ n with
  | None => dzero
  | Some points =>
      let max_sqrt_dist := DBL_MAX in
      match nearest_index_from 0 points x y max_sqrt_dist None with
      | Some index =>
          match points !! index with
          | Some p => pz (point_position p)
          | None => dzero
          end
      | None => dzero
      end
  end.

(** ** The vehicle input *)

(** [set_input] on the members of the node. *)
Definition set_input (cmd : Sim.AckermannControlCommand) (acc_by_slope : double)
    (n : Node env) : Node env :=
  let sim :=
    Sim.set_input (GearCommand_NONE env) (GearCommand_REVERSE env)
      (GearCommand_REVERSE_2 env)
      {| Sim.vehicle_model_type_ := vehicle_model_type_ n;
         Sim.vehicle_model_ptr_ := interface (vehicle_model_ptr_ n) |}
      cmd acc_by_slope in
  set_vehicle_model
    {| interface := Sim.vehicle_model_ptr_ sim;
       state_ := state_ (vehicle_model_ptr_ n) |} n.

(** ** Control mode and engagement *)

(** [on_control_mode_request]: the node after the request and
    [response->success]. *)
Definition on_control_mode_request (request_mode : Z) (n : Node env)
  : Node env * bool :=
  let m := request_mode in
  if (m =? Request_MANUAL env)%Z then
    (set_control_mode (ControlModeReport_MANUAL env) n, true)
  else if (m =? Request_AUTONOMOUS env)%Z then
    (set_control_mode (ControlModeReport_AUTONOMOUS env) n, true)
  else (n, false).

(** [on_engage]. *)
Definition on_engage (engage : bool) (n : Node env) : Node env :=
  set_simulate_motion engage n.

(** ** The initial state *)

(** [set_initial_state]. *)
Definition set_initial_state (p : Pose (Quaternion env)) (twist : Twist)
    (n : Node env) : Node env :=
  let x := px (position p) in
  let y := py (position p) in
  let yaw := getYaw env (orientation p) in
  let vx := linear_x twist in
  let steer := dzero in
  let accx := dzero in
  let state :=
    match vehicle_model_type_ n with
    | Sim.IDEAL_STEER_VEL => [x; y; yaw]
    | Sim.IDEAL_STEER_ACC | Sim.IDEAL_STEER_ACC_GEARED => [x; y; yaw; vx]
    | Sim.DELAY_STEER_VEL => [x; y; yaw; vx; steer]
    | Sim.DELAY_STEER_ACC | Sim.DELAY_STEER_ACC_GEARED =>
        [x; y; yaw; vx; steer; accx]
    end in
  set_is_initialized true
    (set_vehicle_model (setState state (vehicle_model_ptr_ n)) n).

(** [get_transform_msg]: the loop looks the transform up until the lookup
    does not throw, sleeping half a second after each failure.  With [fuel]
    rounds at most, it returns the transform, the buffer it was found in and
    the number of errors logged; [None] when the rounds are used up. *)
Fixpoint get_transform_msg (fuel : nat) (buffer : TfBuffer env)
    (parent_frame child_frame : string)
  : option (TransformStamped * TfBuffer env * nat) :=
  match fuel with
  | O => None
  | S fuel' =>
      match lookupTransform env buffer parent_frame child_frame with
      | Some transform => Some (transform, buffer, O)
      | None =>
          match get_transform_msg fuel' (sleep_for env buffer)
                  parent_frame child_frame with
          | Some (transform, buffer', errors) =>
              Some (transform, buffer', S errors)
          | None => None
          end
      end
  end.

(** [set_initial_state_with_transform]. *)
Definition set_initial_state_with_transform (fuel : nat)
    (pose_stamped : PoseStamped (Quaternion env)) (twist : Twist)
    (n : Node env) : option (Node env) :=
  match get_transform_msg fuel (tf_buffer_ n) (origin_frame_id_ n)
          (frame_id pose_stamped) with
  | None => None
  | Some (transform, buffer, _) =>
      let p :=
        {| position :=
             {| px := dadd (px (position (pose pose_stamped)))
                        (px (translation transform));
                py := dadd (py (position (pose pose_stamped)))
                        (py (translation transform));
                pz := dadd (pz (position (pose pose_stamped)))
                        (pz (translation transform)) |};
           orientation := orientation (pose pose_stamped) |} in
      Some (set_initial_state p twist (set_tf_buffer buffer n))
  end.

(** A default-constructed [Twist]. *)
Definition zero_twist : Twist := {| linear_x := dzero |}.

(** [on_initialpose]. *)
Definition on_initialpose (fuel : nat) (msg : PoseStamped (Quaternion env))
    (n : Node env) : option (Node env) :=
  let initial_twist := zero_twist in
  let initial_pose := {| frame_id := frame_id msg; pose := pose msg |} in
  match set_initial_state_with_transform fuel initial_pose initial_twist n with
  | None => None
  | Some n' => Some (set_initial_pose (Some msg) n')
  end.

(** [on_initialtwist]. *)
Definition on_initialtwist (fuel : nat) (msg : Twist) (n : Node env)
  : option (Node env) :=
  match initial_pose_ n with
  | None => Some n
  | Some stored =>
      let initial_pose := {| frame_id := frame_id stored; pose := pose stored |} in
      match set_initial_state_with_transform fuel initial_pose msg n with
      | None => None
      | Some n' => Some (set_initial_twist msg n')
      end
  end.

(** [on_set_pose]; the response is the success status. *)
Definition on_set_pose (fuel : nat) (request : PoseStamped (Quaternion env))
    (n : Node env) : option (Node env) :=
  let initial_twist := zero_twist in
  let initial_pose := {| frame_id := frame_id request; pose := pose request |} in
  set_initial_state_with_transform fuel initial_pose initial_twist n.

(** ** Publishing *)

Definition publish_velocity (n : Node env) (velocity : Sim.VelocityReport)
  : Published env :=
  PubVelocity (simulated_frame_id_ n) velocity.

Definition publish_odometry (n : Node env) (odometry : OdometryMsg env)
  : Published env :=
  PubOdometry (origin_frame_id_ n) (simulated_frame_id_ n) odometry.

Definition publish_steering (steer : Sim.SteeringReport) : Published env :=
  PubSteering steer.

(** [constexpr auto COV = 0.001]. *)
Definition COV : double := double_literal 1 1000.

Definition publish_acceleration (n : Node env) : Published env :=
  PubAcceleration "/base_link" (getAx env (vehicle_model_ptr_ n))
    (<[XYZRPY_YAW_YAW env := COV]>
       (<[XYZRPY_PITCH_PITCH env := COV]>
          (<[XYZRPY_ROLL_ROLL env := COV]>
             (<[XYZRPY_Z_Z env := COV]>
                (<[XYZRPY_Y_Y env := COV]>
                   (<[XYZRPY_X_X env := COV]> ∅)))))).

(** The three diagonal entries [publish_imu] writes in each covariance. *)
Definition xyz_diagonal : gmap Z double :=
  <[XYZ_Z_Z env := COV]> (<[XYZ_Y_Y env := COV]> (<[XYZ_X_X env := COV]> ∅)).

Definition publish_imu (n : Node env) : Published env :=
  PubImu "base_link" (getAx env (vehicle_model_ptr_ n)) xyz_diagonal
    (Sim.twist_angular_z (odom (current_odometry_ n))) xyz_diagonal
    (Sim.pose_orientation (odom (current_odometry_ n))) xyz_diagonal.

Definition publish_control_mode_report (n : Node env) : Published env :=
  PubControlModeReport (current_control_mode_ n).

Definition publish_gear_report (n : Node env) : Published env :=
  PubGearReport (getGear (vehicle_model_ptr_ n)).

(** The two reports that are published once a command has arrived. *)
Definition publish_turn_indicators_report (n : Node env) : list (Published env) :=
  match current_turn_indicators_cmd_ptr_ n with
  | None => []
  | Some command => [PubTurnIndicatorsReport command]
  end.

Definition publish_hazard_lights_report (n : Node env) : list (Published env) :=
  match current_hazard_lights_cmd_ptr_ n with
  | None => []
  | Some command => [PubHazardLightsReport command]
  end.

Definition publish_tf (n : Node env) (odometry : OdometryMsg env) : Published env :=
  PubTf (origin_frame_id_ n) (simulated_frame_id_ n)
    {| px := Sim.pose_position_x (odom odometry);
       py := Sim.pose_position_y (odom odometry);
       pz := pose_position_z odometry |}
    (Sim.pose_orientation (odom odometry)).

(** ** The timer *)

(** The block "update vehicle dynamics" of [on_timer], for the time step
    [dt] the clock gives. *)
Definition update_vehicle_dynamics (dt acc_by_slope : double) (n : Node env)
  : Node env :=
  let n1 :=
    if (current_control_mode_ n =? ControlModeReport_AUTONOMOUS env)%Z then
      set_input (current_ackermann_cmd_ n) acc_by_slope
        (set_vehicle_model (setGear (current_gear_cmd_ n) (vehicle_model_ptr_ n)) n)
    else
      set_input (current_manual_ackermann_cmd_ n) acc_by_slope
        (set_vehicle_model
           (setGear (current_manual_gear_cmd_ n) (vehicle_model_ptr_ n)) n) in
  if simulate_motion_ n1
  then set_vehicle_model (update env dt (vehicle_model_ptr_ n1)) n1
  else n1.

(** The blocks "set current state" and "add estimate covariance" of
    [on_timer]. *)
Definition set_current_state (ego_pitch_angle : double) (n : Node env)
  : Node env :=
  let odometry0 := to_odometry (vehicle_model_ptr_ n) ego_pitch_angle in
  let z :=
    get_z_pose_from_trajectory n (Sim.pose_position_x (odom odometry0))
      (Sim.pose_position_y (odom odometry0)) in
  let velocity := to_velocity_report (vehicle_model_ptr_ n) in
  let steer := to_steering_report (vehicle_model_ptr_ n) in
  let noisy :=
    if add_measurement_noise_ n then
      Sim.add_measurement_noise (Engine env) (Dist env) (draw env) (Quaternion env)
        (getYaw env) (createQuaternionFromYaw env) (measurement_noise_ n)
        (odom odometry0) velocity steer (rand_engine_ n)
    else (odom odometry0, velocity, steer, rand_engine_ n) in
  let odometry :=
    {| odom := fst (fst (fst noisy));
       pose_position_z := z;
       pose_covariance :=
         <[XYZRPY_Y_Y env := y_stddev_ n]>
           (<[XYZRPY_X_X env := x_stddev_ n]> (pose_covariance odometry0)) |} in
  set_measurements odometry (snd (fst (fst noisy))) (snd (fst noisy)) (snd noisy) n.

(** [on_timer]: the node after the tick and the messages published, in
    order. *)
Definition on_timer (dt : double) (n : Node env)
  : Node env * list (Published env) :=
  if negb (is_initialized_ n) then (n, [])
  else
    let ego_pitch_angle :=
      calculate_ego_pitch env (road_lanelets_ n) (vehicle_model_ptr_ n) in
    let acc_by_slope :=
      if enable_road_slope_simulation_ n
      then dmul (dopp (double_literal 981 100)) (sin env ego_pitch_angle)
      else dzero in
    let n1 := update_vehicle_dynamics dt acc_by_slope n in
    let n2 := set_current_state ego_pitch_angle n1 in
    (n2,
     [publish_odometry n2 (current_odometry_ n2);
      publish_velocity n2 (current_velocity_ n2);
      publish_steering (current_steer_ n2);
      publish_acceleration n2;
      publish_imu n2;
      publish_control_mode_report n2;
      publish_gear_report n2]
     ++ publish_turn_indicators_report n2
     ++ publish_hazard_lights_report n2
     ++ [publish_tf n2 (current_odometry_ n2)]).

End NodeFunctions.

(** ** The node as a machine

    The callbacks the executor may run, with their arguments; [fuel] bounds
    the rounds a callback may wait for a transform. *)
Inductive Event (env : Env) : Type :=
| EvTimer (dt : double)
| EvAckermannCmd (msg : Sim.AckermannControlCommand)
| EvManualAckermannCmd (msg : Sim.AckermannControlCommand)
| EvGearCmd (msg : Z)
| EvManualGearCmd (msg : Z)
| EvTurnIndicatorsCmd (msg : Z)
| EvHazardLightsCmd (msg : Z)
| EvTrajectory (msg : Trajectory)
| EvEngage (engage : bool)
| EvControlModeRequest (mode : Z)
| EvInitialPose (fuel : nat) (msg : PoseStamped (Quaternion env))
| EvInitialTwist (fuel : nat) (msg : Twist)
| EvSetPose (fuel : nat) (request : PoseStamped (Quaternion env)).
Arguments EvTimer {env} _.
Arguments EvAckermannCmd {env} _.
Arguments EvManualAckermannCmd {env} _.
Arguments EvGearCmd {env} _.
Arguments EvManualGearCmd {env} _.
Arguments EvTurnIndicatorsCmd {env} _.
Arguments EvHazardLightsCmd {env} _.
Arguments EvTrajectory {env} _.
Arguments EvEngage {env} _.
Arguments EvControlModeRequest {env} _.
Arguments EvInitialPose {env} _ _.
Arguments EvInitialTwist {env} _ _.
Arguments EvSetPose {env} _ _.

Section Machine.

Context {env : Env}.

(** Whether the event is one of the three that set a pose. *)
Definition is_pose_event (e : Event env) : bool :=
  match e with
  | EvInitialPose _ _ | EvInitialTwist _ _ | EvSetPose _ _ => true
  | _ => false
  end.

(** Whether the event is a tick of the timer. *)
Definition is_timer_event (e : Event env) : bool :=
  match e with
  | EvTimer _ => true
  | _ => false
  end.

(** Whether the event is an engage message. *)
Definition is_engage_event (e : Event env) : bool :=
  match e with
  | EvEngage _ => true
  | _ => false
  end.

(** Whether the message is an odometry. *)
Definition is_odometry (p : Published env) : bool :=
  match p with
  | PubOdometry _ _ _ => true
  | _ => false
  end.

(** One callback: the node after it and what it published; [None] when it
    is still waiting for a transform. *)
Definition handle (e : Event env) (n : Node env)
  : option (Node env * list (Published env)) :=
  match e with
  | EvTimer dt => Some (on_timer dt n)
  | EvAckermannCmd msg => Some (on_ackermann_cmd msg n, [])
  | EvManualAckermannCmd msg => Some (on_manual_ackermann_cmd msg n, [])
  | EvGearCmd msg => Some (on_gear_cmd msg n, [])
  | EvManualGearCmd msg => Some (on_manual_gear_cmd msg n, [])
  | EvTurnIndicatorsCmd msg => Some (on_turn_indicators_cmd msg n, [])
  | EvHazardLightsCmd msg => Some (on_hazard_lights_cmd msg n, [])
  | EvTrajectory msg => Some (on_trajectory msg n, [])
  | EvEngage engage => Some (on_engage engage n, [])
  | EvControlModeRequest mode => Some (fst (on_control_mode_request mode n), [])
  | EvInitialPose fuel msg =>
      option_map (fun n' => (n', [])) (on_initialpose fuel msg n)
  | EvInitialTwist fuel msg =>
      option_map (fun n' => (n', [])) (on_initialtwist fuel msg n)
  | EvSetPose fuel request =>
      option_map (fun n' => (n', [])) (on_set_pose fuel request n)
  end.

(** The callbacks of [events] one after the other. *)
Fixpoint run (events : list (Event env)) (n : Node env)
  : option (Node env * list (Published env)) :=
  match events with
  | [] => Some (n, [])
  | e :: rest =>
      match handle e n with
      | None => None
      | Some (n1, published1) =>
          match run rest n1 with
          | None => None
          | Some (n2, published2) => Some (n2, published1 ++ published2)
          end
      end
  end.

End Machine.

End SimulatorNode.

(* ===================================================================== *)
(** * A node on a straight line: concrete inputs                          *)
(* ===================================================================== *)

Module NodeScenario.

Import IEEE754.
Import SimulatorNode.

(** The [double] of a small integer. *)
Abbreviation dz := double_of_Z.

(** A vehicle model in the manner of the ideal models: the state holds x, y,
    yaw and the velocity, and an update moves x by the velocity. *)
Definition state_at (i : nat) (m : VehicleModel) : double :=
  List.nth i (state_ m) dzero.

Definition straight_update (dt : double) (m : VehicleModel) : VehicleModel :=
  match state_ m with
  | x :: rest => setState (dadd x (dmul dt (state_at 3 m)) :: rest) m
  | [] => m
  end.

(** The engine is the list of the samples still to be drawn. *)
Definition draw_next (_ : unit) (e : list double) : double * list double :=
  (List.hd dzero e, List.tl e).

(** A transform that becomes available after two sleeps. *)
Definition late_transform (buffer : nat) (_ _ : string) : option TransformStamped :=
  if (buffer <? 2)%nat then None
  else Some {| translation := {| px := dz 1; py := dz 2; pz := dzero |} |}.

Definition line_env : Env :=
  {| Engine := list double;
     Dist := unit;
     draw := draw_next;
     Quaternion := double;
     getYaw := fun q => q;
     createQuaternionFromYaw := fun yaw => yaw;
     createQuaternionFromRPY := fun _ _ yaw => yaw;
     getX := state_at 0;
     getY := state_at 1;
     getModelYaw := state_at 2;
     getVx := state_at 3;
     getWz := fun _ => dzero;
     getSteer := fun _ => dzero;
     getAx := fun _ => dzero;
     update := straight_update;
     RoadLanelets := unit;
     calculate_ego_pitch := fun _ _ => dzero;
     sin := fun a => a;
     TfBuffer := nat;
     lookupTransform := late_transform;
     sleep_for := S;
     GearCommand_NONE := 0;
     GearCommand_REVERSE := 20;
     GearCommand_REVERSE_2 := 21;
     ControlModeReport_AUTONOMOUS := 1;
     ControlModeReport_MANUAL := 4;
     Request_AUTONOMOUS := 1;
     Request_MANUAL := 2;
     XYZRPY_X_X := 0;
     XYZRPY_Y_Y := 7;
     XYZRPY_Z_Z := 14;
     XYZRPY_ROLL_ROLL := 21;
     XYZRPY_PITCH_PITCH := 28;
     XYZRPY_YAW_YAW := 35;
     XYZ_X_X := 0;
     XYZ_Y_Y := 4;
     XYZ_Z_Z := 8 |}.

(** A command with the speed 3, no steering and the acceleration
    [accel]. *)
Definition drive_command (accel : float) : SimplePlanningSimulator.AckermannControlCommand :=
  {| SimplePlanningSimulator.lateral :=
       {| SimplePlanningSimulator.steering_tire_angle := fzero |};
     SimplePlanningSimulator.longitudinal :=
       {| SimplePlanningSimulator.speed := to_float (dz 3);
          SimplePlanningSimulator.acceleration := accel |} |}.

(** A trajectory of three points along the x axis, climbing. *)
Definition climbing_trajectory : Trajectory :=
  [ {| point_position := {| px := dz 0; py := dz 0; pz := dz 10 |} |};
    {| point_position := {| px := dz 5; py := dz 0; pz := dz 11 |} |};
    {| point_position := {| px := dz 10; py := dz 0; pz := dz 12 |} |} ].

(** Two points of a trajectory that differ by less than rounding lets the
    distance from the origin see: (1, 2^-30) and (1, 0). *)
Definition close_trajectory : Trajectory :=
  [ {| point_position :=
         {| px := dz 1; py := binary_normalize 53 1024 1 (-30) false; pz := dz 1 |} |};
    {| point_position := {| px := dz 1; py := dz 0; pz := dz 2 |} |} ].

(** A point and a query near the largest [double]: the exact squared
    distance between them is not below [DBL_MAX], the computed one is. *)
Definition far_point : TrajectoryPoint :=
  {| point_position :=
       {| px := S754_finite false (2 ^ 53 - 1) 459;
          py := S754_finite false (2 ^ 52) 407;
          pz := dz 7 |} |}.

Definition far_x : double := S754_finite true (2 ^ 53 - 1) 405.

Definition unit_noise : SimplePlanningSimulator.MeasurementNoise (Dist line_env) :=
  {| SimplePlanningSimulator.pos_dist_ := tt;
     SimplePlanningSimulator.vel_dist_ := tt;
     SimplePlanningSimulator.rpy_dist_ := tt;
     SimplePlanningSimulator.steer_dist_ := tt |}.

(** The samples 0.01, 0.02, ..., 0.06. *)
Definition samples : Engine line_env :=
  [double_literal 1 100; double_literal 2 100; double_literal 3 100;
   double_literal 4 100; double_literal 5 100; double_literal 6 100].

(** A fresh odometry message. *)
Definition zero_odometry : OdometryMsg line_env :=
  {| odom :=
       {| SimplePlanningSimulator.pose_position_x := dzero;
          SimplePlanningSimulator.pose_position_y := dzero;
          SimplePlanningSimulator.pose_orientation := (dzero : Quaternion line_env);
          SimplePlanningSimulator.twist_linear_x := dzero;
          SimplePlanningSimulator.twist_angular_z := dzero |};
     pose_position_z := dzero;
     pose_covariance := ∅ |}.

(** An initialised node in autonomous mode at x = 4, moving at 2. *)
Definition line_node : Node line_env :=
  {| simulated_frame_id_ := "base_link";
     origin_frame_id_ := "odom";
     add_measurement_noise_ := true;
     simulate_motion_ := true;
     enable_road_slope_simulation_ := false;
     x_stddev_ := double_literal 1 10000;
     y_stddev_ := double_literal 1 10000;
     measurement_noise_ := unit_noise;
     rand_engine_ := samples;
     is_initialized_ := true;
     vehicle_model_type_ := SimplePlanningSimulator.IDEAL_STEER_ACC_GEARED;
     vehicle_model_ptr_ :=
       {| interface :=
            {| SimplePlanningSimulator.gear_ := 2;
               SimplePlanningSimulator.input_ := [dzero; dzero] |};
          state_ := [dz 4; dz 0; dz 0; dz 2] |};
     road_lanelets_ := (tt : RoadLanelets line_env);
     tf_buffer_ := (0%nat : TfBuffer line_env);
     current_ackermann_cmd_ := drive_command (to_float (dz 1));
     current_manual_ackermann_cmd_ := drive_command (to_float (double_literal 1 2));
     current_gear_cmd_ := 2;
     current_manual_gear_cmd_ := 20;
     current_control_mode_ := 1;
     current_turn_indicators_cmd_ptr_ := Some 1%Z;
     current_hazard_lights_cmd_ptr_ := None;
     current_trajectory_ptr_ := Some climbing_trajectory;
     initial_pose_ := None;
     initial_twist_ := zero_twist;
     current_odometry_ := zero_odometry;
     current_velocity_ :=
       {| SimplePlanningSimulator.longitudinal_velocity := fzero;
          SimplePlanningSimulator.lateral_velocity := fzero;
          SimplePlanningSimulator.heading_rate := fzero |};
     current_steer_ :=
       {| SimplePlanningSimulator.report_steering_tire_angle := fzero |} |}.

(** A pose in the frame "map". *)
Definition map_pose : PoseStamped (Quaternion line_env) :=
  {| frame_id := "map";
     pose := {| position := {| px := dz 3; py := dz 4; pz := dzero |};
                orientation := (double_literal 1 2 : Quaternion line_env) |} |}.

End NodeScenario.

(* ===================================================================== *)
(** * Properties of the simulator                                         *)
(* ===================================================================== *)

Module SimulatorFacts.

Import IEEE754.
Import SimplePlanningSimulator.
Import Scenario.

Lemma input_acc_none (NONE REVERSE REVERSE_2 : Z) (accel : float) (slope : double) :
  input_acc NONE REVERSE REVERSE_2 NONE accel slope = fzero.
Proof. unfold input_acc. now rewrite Z.eqb_refl. Qed.

Lemma input_acc_reverse (NONE REVERSE REVERSE_2 gear : Z) (accel : float)
    (slope : double) :
  gear <> NONE -> gear = REVERSE \/ gear = REVERSE_2 ->
  input_acc NONE REVERSE REVERSE_2 gear accel slope
  = to_float (dsub (to_double (fopp accel)) slope).
Proof.
  intros Hn Hr. unfold input_acc.
  destruct (Z.eqb_spec gear NONE) as [|_]; [contradiction|].
  destruct Hr as [-> | ->].
  - now rewrite Z.eqb_refl.
  - rewrite Z.eqb_refl. now rewrite orb_true_r.
Qed.

Lemma input_acc_forward (NONE REVERSE REVERSE_2 gear : Z) (accel : float)
    (slope : double) :
  gear <> NONE -> gear <> REVERSE -> gear <> REVERSE_2 ->
  input_acc NONE REVERSE REVERSE_2 gear accel slope
  = to_float (dadd (to_double accel) slope).
Proof.
  intros Hn Hr Hr2. unfold input_acc.
  destruct (Z.eqb_spec gear NONE); [contradiction|].
  destruct (Z.eqb_spec gear REVERSE); [contradiction|].
  destruct (Z.eqb_spec gear REVERSE_2); [contradiction|].
  reflexivity.
Qed.

(** C9.  [set_input] hands the vehicle model an input whose
    acceleration component is exactly zero when the gear is [NONE], whatever
    the commanded acceleration and the slope.  When the gear is [REVERSE] or
    [REVERSE_2] it is the negated commanded acceleration minus the slope
    acceleration, and for every other gear the sum of the two, in both cases
    computed in [double] and rounded to the [float] variable [acc].  The
    models driven by acceleration receive this value as the first component
    of their input; the two models driven by velocity receive the commanded
    speed, and their input has no acceleration component. *)
Theorem set_input_acceleration :
  forall (NONE REVERSE REVERSE_2 : Z) (sim : Simulator)
         (cmd : AckermannControlCommand) (acc_by_slope : double),
    NONE <> REVERSE -> NONE <> REVERSE_2 ->
    let gear := getGear (vehicle_model_ptr_ sim) in
    let accel := acceleration (longitudinal cmd) in
    let steer := steering_tire_angle (lateral cmd) in
    let sim' := set_input NONE REVERSE REVERSE_2 sim cmd acc_by_slope in
    exists acc : float,
      (gear = NONE -> acc = fzero /\ to_double acc = dzero) /\
      (gear = REVERSE \/ gear = REVERSE_2 ->
       acc = to_float (dsub (to_double (fopp accel)) acc_by_slope)) /\
      (gear <> NONE -> gear <> REVERSE -> gear <> REVERSE_2 ->
       acc = to_float (dadd (to_double accel) acc_by_slope)) /\
      (is_acceleration_model (vehicle_model_type_ sim) = true ->
       input_ (vehicle_model_ptr_ sim') = [to_double acc; to_double steer]) /\
      (is_velocity_model (vehicle_model_type_ sim) = true ->
       input_ (vehicle_model_ptr_ sim')
       = [to_double (speed (longitudinal cmd)); to_double steer]) /\
      getGear (vehicle_model_ptr_ sim') = gear.
Proof.
  intros NONE REVERSE REVERSE_2 sim cmd slope Hr Hr2 gear accel steer sim'.
  exists (input_acc NONE REVERSE REVERSE_2 gear accel slope).
  assert (Hrev : gear = REVERSE \/ gear = REVERSE_2 -> gear <> NONE).
  { intros [-> | ->]; congruence. }
  split; [intros ->; rewrite input_acc_none; split; reflexivity|].
  split; [intros Hg; apply input_acc_reverse; auto|].
  split; [apply input_acc_forward|].
  subst sim'. unfold set_input. cbn.
  destruct (vehicle_model_type_ sim); cbn;
    repeat split; intros; try discriminate; reflexivity.
Qed.

Lemma set_input_acceleration_witness :
  (0 <> 20)%Z /\ (0 <> 21)%Z /\
  exists acc : float,
    (20%Z = 20%Z \/ 20%Z = 21%Z ->
     acc = to_float (dsub (to_double (fopp (acceleration (longitudinal command))))
                       (double_literal 1 2))) /\
    (is_acceleration_model DELAY_STEER_ACC_GEARED = true ->
     input_ (vehicle_model_ptr_ (set_input 0 20 21 reversing command (double_literal 1 2)))
     = [to_double acc; to_double (steering_tire_angle (lateral command))]) /\
    getGear (vehicle_model_ptr_ (set_input 0 20 21 reversing command (double_literal 1 2)))
    = 20%Z.
Proof.
  split; [lia|]. split; [lia|].
  destruct (set_input_acceleration 0 20 21 reversing command (double_literal 1 2))
    as (acc & _ & Hrev & _ & Hacc & _ & Hgear); [lia | lia |].
  exists acc. split; [exact Hrev|]. split; [exact Hacc | exact Hgear].
Defined.

(** The acceleration is not the sum itself.  With the gear [DRIVE], the
    commanded acceleration 1.25 and the slope acceleration 0.1, the model
    receives 11324621 * 2^-23 = 1.35000002384185791015625, the [float]
    nearest to the sum, which is neither the sum formed in [double]
    (1.350000000000000088817841970012523) nor the sum of the two numbers;
    in reverse it receives the negative of that [float]. *)
Lemma set_input_acceleration_not_the_sum :
  let slope := double_literal 1 10 in
  let accel := acceleration (longitudinal command) in
  let sim' := set_input 0 20 21 driving command slope in
  let acc := List.hd dzero (input_ (vehicle_model_ptr_ sim')) in
  getGear (vehicle_model_ptr_ driving) = 2%Z /\
  is_acceleration_model (vehicle_model_type_ driving) = true /\
  (value accel == 5 # 4)%Q /\
  slope = S754_finite false 7205759403792794 (-56) /\
  acc = S754_finite false 6079859604324352 (-52) /\
  (value acc == 11324621 # 8388608)%Q /\
  dadd (to_double accel) slope = S754_finite false 6079859496950170 (-52) /\
  acc <> dadd (to_double accel) slope /\
  ~ (value acc == value accel + value slope)%Q /\
  getGear (vehicle_model_ptr_ reversing) = 20%Z /\
  List.hd dzero (input_ (vehicle_model_ptr_ (set_input 0 20 21 reversing command slope)))
  = S754_finite true 6079859604324352 (-52) /\
  List.hd dzero (input_ (vehicle_model_ptr_ (set_input 0 20 21 reversing command slope)))
  <> dopp (dadd (to_double accel) slope).
Proof.
  cbv zeta. repeat split; try (vm_compute; reflexivity).
  - vm_compute. intros H. discriminate H.
  - vm_compute. intros H. discriminate H.
  - vm_compute. intros H. discriminate H.
Qed.

(** C10.  [add_measurement_noise] draws the velocity noise once
    (the third draw from the engine) and adds that one sample both to the
    longitudinal twist of the odometry and to the longitudinal velocity of
    the velocity report.  The twist is a [double] and gets the sum; the
    velocity of the report is a [float] and gets its own sum with the
    sample, formed in [double] and rounded to [float].  If the twist is the
    velocity of the report before, the velocity of the report afterwards is
    the twist afterwards rounded to [float]. *)
Theorem add_measurement_noise_same_velocity_sample :
  forall (Engine Dist : Type) (draw : Dist -> Engine -> double * Engine)
         (Quaternion : Type) (getYaw : Quaternion -> double)
         (createQuaternionFromYaw : double -> Quaternion)
         (n : MeasurementNoise Dist) (odom : Odometry Quaternion)
         (vel : VelocityReport) (steer : SteeringReport) (e : Engine),
    let r := add_measurement_noise Engine Dist draw Quaternion getYaw
               createQuaternionFromYaw n odom vel steer e in
    let odom' := fst (fst (fst r)) in
    let vel' := snd (fst (fst r)) in
    let velocity_noise := velocity_noise_of Engine Dist draw n e in
    twist_linear_x odom' = dadd (twist_linear_x odom) velocity_noise /\
    longitudinal_velocity vel'
    = to_float (dadd (to_double (longitudinal_velocity vel)) velocity_noise) /\
    (twist_linear_x odom = to_double (longitudinal_velocity vel) ->
     longitudinal_velocity vel' = to_float (twist_linear_x odom')).
Proof.
  intros Engine Dist draw Quaternion getYaw mkq n odom vel steer e.
  unfold add_measurement_noise, velocity_noise_of, bind, ret, sample.
  destruct (draw (pos_dist_ Dist n) e) as [nx e1]; cbn.
  destruct (draw (pos_dist_ Dist n) e1) as [ny e2]; cbn.
  destruct (draw (vel_dist_ Dist n) e2) as [nv e3]; cbn.
  destruct (draw (rpy_dist_ Dist n) e3) as [nyaw e4]; cbn.
  destruct (draw (steer_dist_ Dist n) e4) as [ns e5]; cbn.
  repeat split. intros ->. reflexivity.
Qed.

(** The two velocities do not stay equal.  An odometry and a velocity
    report that agree on the velocity 0 get the sample 0.1; the twist
    becomes the [double] 0.1 and the velocity of the report the [float] 0.1,
    which is 0.100000001490116119384765625.  The two are no longer equal,
    and their difference, which was zero, is not. *)
Lemma add_measurement_noise_velocities_part :
  let r := add_measurement_noise (list double) unit next_sample unit
             (fun _ => dzero) (fun _ => tt) unit_distributions
             still_odometry still_velocity still_steering tenths in
  let odom' := fst (fst (fst r)) in
  let vel' := snd (fst (fst r)) in
  twist_linear_x still_odometry = to_double (longitudinal_velocity still_velocity) /\
  twist_linear_x odom' = S754_finite false 7205759403792794 (-56) /\
  longitudinal_velocity vel' = S754_finite false 13421773 (-27) /\
  (value (longitudinal_velocity vel') == 13421773 # 134217728)%Q /\
  twist_linear_x odom' <> to_double (longitudinal_velocity vel') /\
  dsub (twist_linear_x odom') (to_double (longitudinal_velocity vel'))
  <> dsub (twist_linear_x still_odometry)
       (to_double (longitudinal_velocity still_velocity)).
Proof.
  cbv zeta. repeat split; try (vm_compute; reflexivity).
  - vm_compute. intros H. discriminate H.
  - vm_compute. intros H. discriminate H.
Qed.

End SimulatorFacts.


(* ===================================================================== *)
(** * Properties of the intersection module                               *)
(* ===================================================================== *)

Module IntersectionFacts.

Import Intersection.
Import Scenario.

Local Open Scope Z_scope.

(** ** Accessors of [IntersectionLanelets] *)

(** C5.  With the priority flag set, [attention()] and
    [occlusion_attention()] return the non-preceding attention lanelets and
    [attention_area()] returns the non-preceding attention polygons; with the
    flag unset each of the four accessors [attention()],
    [occlusion_attention()], [attention_area()] and
    [occlusion_attention_area()] returns its full list. *)
Theorem attention_accessors_by_priority :
  forall l : IntersectionLanelets,
    (is_prioritized_ l = true ->
     attention l = attention_non_preceding_ l /\
     occlusion_attention l = attention_non_preceding_ l /\
     attention_area l = attention_non_preceding_area_ l) /\
    (is_prioritized_ l = false ->
     attention l = attention_ l /\
     occlusion_attention l = occlusion_attention_ l /\
     attention_area l = attention_area_ l /\
     occlusion_attention_area l = occlusion_attention_area_ l).
Proof.
  intros l. unfold attention, occlusion_attention, attention_area,
    occlusion_attention_area.
  destruct (is_prioritized_ l); repeat split; intros; congruence.
Qed.

(** With the flag set, [occlusion_attention_area()] still returns the full
    occlusion-attention polygons, which differ from the non-preceding
    ones. *)
Lemma occlusion_attention_area_ignores_priority :
  is_prioritized_ prioritized_lanelets = true /\
  occlusion_attention_area prioritized_lanelets
    = occlusion_attention_area_ prioritized_lanelets /\
  occlusion_attention_area prioritized_lanelets
    <> attention_non_preceding_area_ prioritized_lanelets.
Proof.
  split; [reflexivity|]. split; [reflexivity|]. cbn. discriminate.
Qed.

(** ** The record of stop lines *)

(** C8.  [IntersectionStopLines] has four optional path indices (stuck,
    default, first-attention and occlusion-peeking stop line) and two
    mandatory ones, the closest index and the pass-judge line.  The
    pass-judge line is zero by default, and the value
    [generateIntersectionStopLines] stores is the computed index clamped to
    zero: zero whenever the computed index is negative, the computed index
    otherwise. *)
Theorem stop_lines_fields_and_pass_judge_clamp :
  optional_fields
    = [F_stuck_stop_line; F_default_stop_line; F_first_attention_stop_line;
       F_occlusion_peeking_stop_line] /\
  mandatory_fields = [F_closest_idx; F_pass_judge_line] /\
  pass_judge_line IntersectionStopLines_default = 0 /\
  (forall within conflicting_area detection_area planner_data info
          use_stuck_stopline stop_line_margin peeking_offset sl,
      generateIntersectionStopLines within conflicting_area detection_area
        planner_data info use_stuck_stopline stop_line_margin peeking_offset
        = Some sl ->
      exists interval,
        lane_id_interval info = Some interval /\
        let computed :=
          pass_judge_int
            (stopLineIndices within conflicting_area detection_area planner_data
               info interval use_stuck_stopline stop_line_margin peeking_offset) in
        (computed < 0 -> pass_judge_line sl = 0) /\
        (0 <= computed -> pass_judge_line sl = computed) /\
        0 <= pass_judge_line sl).
Proof.
  split; [reflexivity|]. split; [reflexivity|]. split; [reflexivity|].
  intros within ca da pd info use m po sl.
  unfold generateIntersectionStopLines.
  destruct (lane_id_interval info) as [interval|]; [|discriminate].
  intros [= <-]. exists interval. split; [reflexivity|]. cbn. lia.
Qed.

(** The struct does not have five optional indices next to a single
    mandatory one. *)
Lemma stop_lines_not_five_optional :
  ~ (length optional_fields = 5%nat /\ mandatory_fields = [F_pass_judge_line]).
Proof. cbn. intros [H _]. discriminate. Qed.

(** A conflicting area entered at index 3 with a margin of five points: the
    computed pass-judge index is negative and the stored one is zero. *)
Example pass_judge_clamped_on_straight_path :
  pass_judge_int
    (stopLineIndices within_extent (rectangle 3 6) (rectangle 4 8)
       no_map_stop_line straight_info (2, 18) false 5 2) = -2 /\
  option_map pass_judge_line
    (generateIntersectionStopLines within_extent (rectangle 3 6) (rectangle 4 8)
       no_map_stop_line straight_info false 5 2) = Some 0.
Proof. split; vm_compute; reflexivity. Qed.

(** ** Traffic priority *)

(** C6.  [getTrafficPrioritizedLevel] returns one of the three levels:
    [FULLY_PRIORITIZED] for a red signal or one with an arrow,
    [PARTIALLY_PRIORITIZED] for an amber signal, [NOT_PRIORITIZED] for a
    green one, and [NOT_PRIORITIZED] as well when the state of the signal is
    unknown or the lane is missing from the signal map. *)
Theorem traffic_prioritized_level_cases :
  forall (lane : ConstLanelet) (tl_infos : gmap Z TrafficSignalStamped),
    let level := getTrafficPrioritizedLevel lane tl_infos in
    (level = FULLY_PRIORITIZED \/ level = PARTIALLY_PRIORITIZED \/
     level = NOT_PRIORITIZED) /\
    (tl_infos !! lanelet_id lane = None -> level = NOT_PRIORITIZED) /\
    (forall info : TrafficSignalStamped,
        tl_infos !! lanelet_id lane = Some info ->
        (color (signal info) = RED \/ arrow (signal info) = true ->
         level = FULLY_PRIORITIZED) /\
        (color (signal info) = AMBER -> arrow (signal info) = false ->
         level = PARTIALLY_PRIORITIZED) /\
        (color (signal info) = GREEN -> arrow (signal info) = false ->
         level = NOT_PRIORITIZED) /\
        (color (signal info) = UNKNOWN -> arrow (signal info) = false ->
         level = NOT_PRIORITIZED)).
Proof.
  intros lane tl_infos level. subst level. unfold getTrafficPrioritizedLevel.
  split.
  - destruct (tl_infos !! lanelet_id lane) as [info|]; [|tauto].
    destruct (color (signal info)), (arrow (signal info)); tauto.
  - split.
    + intros ->. reflexivity.
    + intros info ->.
      destruct (color (signal info)), (arrow (signal info));
        repeat split; intros; try reflexivity; try discriminate;
        match goal with
        | H : _ \/ _ |- _ => destruct H; discriminate
        end.
Qed.

(** ** Stuck vehicles *)

Lemma is_stuck_vehicle_true (intersects : Polygon2d -> Polygon2d -> bool)
    (area : Polygon2d) (thr : Q) (o : PredictedObject) :
  is_stuck_vehicle intersects area thr o = true <->
  (object_velocity o < thr)%Q /\ intersects (object_footprint o) area = true.
Proof.
  unfold is_stuck_vehicle.
  destruct (Qlt_le_dec (object_velocity o) thr) as [Hlt | Hle]; cbn.
  - tauto.
  - split; [discriminate|]. intros [Hlt _].
    exfalso. exact (Qlt_not_le _ _ Hlt Hle).
Qed.

(** C2.  [checkStuckVehicleInIntersection] appends to the stuck targets
    exactly the objects whose speed is below the threshold and whose
    footprint overlaps the detection area: an object faster than the
    threshold is never among them, overlap or not, and the result is true
    exactly when there is such an object. *)
Theorem stuck_vehicle_needs_low_speed_and_overlap :
  forall (intersects : Polygon2d -> Polygon2d -> bool)
         (objects : PredictedObjects) (area : Polygon2d) (thr : Q)
         (debug_data : DebugData),
    let r := checkStuckVehicleInIntersection intersects objects area thr
               debug_data in
    exists stuck : PredictedObjects,
      stuck_targets (snd r) = stuck_targets debug_data ++ stuck /\
      (forall o, In o stuck <->
                 In o objects /\ (object_velocity o < thr)%Q /\
                 intersects (object_footprint o) area = true) /\
      (forall o, (thr < object_velocity o)%Q ->
                 is_stuck_vehicle intersects area thr o = false /\ ~ In o stuck) /\
      (fst r = true <-> exists o, In o stuck).
Proof.
  intros intersects objects area thr debug_data r.
  exists (List.filter (is_stuck_vehicle intersects area thr) objects).
  split; [reflexivity|].
  assert (Hin : forall o,
             In o (List.filter (is_stuck_vehicle intersects area thr) objects) <->
             In o objects /\ (object_velocity o < thr)%Q /\
             intersects (object_footprint o) area = true).
  { intros o. rewrite filter_In, is_stuck_vehicle_true. tauto. }
  split; [exact Hin|]. split.
  - intros o Hfast.
    assert (Hnot : ~ (object_velocity o < thr)%Q).
    { intros Hlt. exact (Qlt_irrefl _ (Qlt_trans _ _ _ Hlt Hfast)). }
    split.
    + destruct (is_stuck_vehicle intersects area thr o) eqn:E; [|reflexivity].
      apply is_stuck_vehicle_true in E. tauto.
    + intros Hs. apply Hin in Hs. tauto.
  - subst r. cbn.
    destruct (List.filter (is_stuck_vehicle intersects area thr) objects)
      as [|o stuck]; cbn.
    + split; [discriminate|]. intros [o []].
    + split; [|reflexivity]. intros _. exists o. now left.
Qed.

(** Of two objects on the detection area, the slow one alone is stuck. *)
Example stuck_vehicle_on_straight_path :
  let r := checkStuckVehicleInIntersection overlaps_extent
             [fast_object; slow_object] (rectangle 1 5) 3 empty_debug_data in
  fst r = true /\ stuck_targets (snd r) = [slow_object].
Proof. split; vm_compute; reflexivity. Qed.

(** ** A path that crosses nothing *)

(** "a straight-through path with no crossing lanelets yields
    [IntersectionStopLines] with all optional fields absent and pass-judge
    line equal to zero": the two areas lie beyond the end of the path. *)
Example stop_lines_without_crossing :
  generateIntersectionStopLines within_extent (rectangle 30 36) (rectangle 42 48)
    no_map_stop_line straight_info false 1 2
  = Some IntersectionStopLines_default.
Proof. vm_compute. reflexivity. Qed.

End IntersectionFacts.
(* ===================================================================== *)
(** * Properties of the simulator node                                    *)
(* ===================================================================== *)

Module NodeFacts.

Import IEEE754.
Import SimulatorNode.
Import NodeScenario.

(** Reduction of the members of a node that is given by its members. *)
Ltac node_simpl :=
  cbn [simulated_frame_id_ origin_frame_id_ add_measurement_noise_
       simulate_motion_ enable_road_slope_simulation_ x_stddev_ y_stddev_
       measurement_noise_ rand_engine_ is_initialized_ vehicle_model_type_
       vehicle_model_ptr_ road_lanelets_ tf_buffer_ current_ackermann_cmd_
       current_manual_ackermann_cmd_ current_gear_cmd_ current_manual_gear_cmd_
       current_control_mode_ current_turn_indicators_cmd_ptr_
       current_hazard_lights_cmd_ptr_ current_trajectory_ptr_ initial_pose_
       initial_twist_ current_odometry_ current_velocity_ current_steer_
       set_vehicle_model set_measurements set_is_initialized set_control_mode
       set_simulate_motion set_tf_buffer set_initial_pose set_initial_twist
       on_ackermann_cmd on_manual_ackermann_cmd on_gear_cmd on_manual_gear_cmd
       on_turn_indicators_cmd on_hazard_lights_cmd on_trajectory on_engage
       negb fst snd] in *.

(** ** The order of [double] *)

(** [<] and [<=] compare the keys of two numbers; neither holds when one
    of them is not a number. *)
Lemma dltb_key (a b : double) :
  dltb a b = true <->
  is_nan a = false /\ is_nan b = false /\ key_lt (order_key a) (order_key b).
Proof.
  unfold dltb, SFltb, SFcompare, key_lt, order_key.
  destruct a as [sa | sa | | sa ma ea], b as [sb | sb | | sb mb eb];
    try destruct sa; try destruct sb; cbn [is_nan];
    try change (Pos.compare_cont Eq ma mb) with (Pos.compare ma mb);
    try (destruct (Z.compare_spec ea eb); destruct (Pos.compare_spec ma mb));
    cbn [CompOpp];
    (split; [intros G; try discriminate G; repeat split; lia
            | intros (G1 & G2 & G3); try discriminate G1; try discriminate G2;
              try reflexivity; exfalso; lia]).
Qed.

Lemma dleb_key (a b : double) :
  dleb a b = true <->
  is_nan a = false /\ is_nan b = false /\ ~ key_lt (order_key b) (order_key a).
Proof.
  unfold dleb, SFleb, SFcompare, key_lt, order_key.
  destruct a as [sa | sa | | sa ma ea], b as [sb | sb | | sb mb eb];
    try destruct sa; try destruct sb; cbn [is_nan];
    try change (Pos.compare_cont Eq ma mb) with (Pos.compare ma mb);
    try (destruct (Z.compare_spec ea eb); destruct (Pos.compare_spec ma mb));
    cbn [CompOpp];
    (split; [intros G; try discriminate G; repeat split; lia
            | intros (G1 & G2 & G3); try discriminate G1; try discriminate G2;
              try reflexivity; exfalso; lia]).
Qed.

Lemma key_lt_trans (k1 k2 k3 : Z * Z * Z) :
  key_lt k1 k2 -> key_lt k2 k3 -> key_lt k1 k3.
Proof.
  destruct k1 as [[c1 e1] m1], k2 as [[c2 e2] m2], k3 as [[c3 e3] m3].
  unfold key_lt. lia.
Qed.

Lemma key_lt_irrefl (k : Z * Z * Z) : ~ key_lt k k.
Proof. destruct k as [[c e] m]. unfold key_lt. lia. Qed.

Lemma key_le_lt_trans (k1 k2 k3 : Z * Z * Z) :
  ~ key_lt k2 k1 -> key_lt k2 k3 -> key_lt k1 k3.
Proof.
  destruct k1 as [[c1 e1] m1], k2 as [[c2 e2] m2], k3 as [[c3 e3] m3].
  unfold key_lt. lia.
Qed.

Lemma dltb_trans (a b c : double) :
  dltb a b = true -> dltb b c = true -> dltb a c = true.
Proof.
  rewrite !dltb_key. intros (Ha & Hb & Hab) (_ & Hc & Hbc).
  repeat split; try assumption. eapply key_lt_trans; eassumption.
Qed.

Lemma dltb_irrefl (a : double) : dltb a a = false.
Proof.
  destruct (dltb a a) eqn:H; [|reflexivity].
  apply dltb_key in H. destruct H as (_ & _ & H).
  exfalso. exact (key_lt_irrefl _ H).
Qed.

Lemma dltb_asym (a b : double) : dltb a b = true -> dltb b a = false.
Proof.
  intros Hab. destruct (dltb b a) eqn:Hba; [|reflexivity].
  pose proof (dltb_trans _ _ _ Hab Hba) as H. now rewrite dltb_irrefl in H.
Qed.

Lemma dltb_not_dleb (a b : double) : dltb a b = true -> dleb b a = false.
Proof.
  intros Hab. destruct (dleb b a) eqn:Hba; [|reflexivity].
  apply dltb_key in Hab. apply dleb_key in Hba.
  destruct Hab as (_ & _ & Hab), Hba as (_ & _ & Hba). contradiction.
Qed.

Lemma dleb_dltb_trans (a b c : double) :
  dleb a b = true -> dltb b c = true -> dltb a c = true.
Proof.
  rewrite dleb_key, !dltb_key. intros (Ha & Hb & Hab) (_ & Hc & Hbc).
  repeat split; try assumption. eapply key_le_lt_trans; eassumption.
Qed.

(** ** The height looked up on the trajectory *)

(** What the loop of [get_z_pose_from_trajectory] returns: the index it had
    when no point is below the least distance so far, and otherwise the
    index of a point that is below it, that no point is below, and that no
    earlier point equals. *)
Lemma nearest_index_from_spec (x y : double) (points : list TrajectoryPoint) :
  forall (i : nat) (min_sqrt_dist : double) (index : option nat),
    match nearest_index_from i points x y min_sqrt_dist index with
    | None =>
        index = None /\
        List.Forall (fun p => dltb (squared_distance p x y) min_sqrt_dist = false)
          points
    | Some k =>
        (index = Some k /\
         List.Forall (fun p => dltb (squared_distance p x y) min_sqrt_dist = false)
           points) \/
        exists j p,
          k = (i + j)%nat /\ points !! j = Some p /\
          dltb (squared_distance p x y) min_sqrt_dist = true /\
          (forall j' q, points !! j' = Some q ->
                        dltb (squared_distance q x y) (squared_distance p x y) = false) /\
          (forall j' q, (j' < j)%nat -> points !! j' = Some q ->
                        dleb (squared_distance q x y) (squared_distance p x y) = false)
    end.
Proof.
  induction points as [|p rest IH]; intros i m index; cbn.
  - destruct index as [k|].
    + left. split; [reflexivity | constructor].
    + split; [reflexivity | constructor].
  - destruct (dltb (squared_distance p x y) m) eqn:Hlt.
    + specialize (IH (S i) (squared_distance p x y) (Some i)).
      destruct (nearest_index_from (S i) rest x y (squared_distance p x y) (Some i))
        as [k|]; [|destruct IH; discriminate].
      right. destruct IH as [[Hk Hall] | (j & q & Hk & Hq & Hlt' & Hmin & Hfirst)].
      * injection Hk as <-. exists 0%nat, p.
        split; [lia|]. split; [reflexivity|]. split; [assumption|]. split.
        -- intros [|j'] q Hq; cbn in Hq.
           ++ injection Hq as <-. apply dltb_irrefl.
           ++ rewrite List.Forall_forall in Hall. apply Hall.
              apply list_elem_of_In. eapply list_elem_of_lookup_2; eassumption.
        -- intros j' q Hj'. lia.
      * exists (S j), q. split; [lia|]. split; [exact Hq|].
        split; [eapply dltb_trans; eassumption|]. split.
        -- intros [|j'] q' Hq'; cbn in Hq'.
           ++ injection Hq' as <-. now apply dltb_asym.
           ++ eapply Hmin; eassumption.
        -- intros [|j'] q' Hj' Hq'; cbn in Hq'.
           ++ injection Hq' as <-. now apply dltb_not_dleb.
           ++ eapply Hfirst; [|eassumption]. lia.
    + specialize (IH (S i) m index).
      destruct (nearest_index_from (S i) rest x y m index) as [k|].
      * destruct IH as [[Hk Hall] | (j & q & Hk & Hq & Hlt' & Hmin & Hfirst)].
        -- left. split; [assumption | now constructor].
        -- right. exists (S j), q. split; [lia|]. split; [exact Hq|].
           split; [assumption|]. split.
           ++ intros [|j'] q' Hq'; cbn in Hq'.
              ** injection Hq' as <-.
                 destruct (dltb (squared_distance p x y) (squared_distance q x y))
                   eqn:Hpq; [|reflexivity].
                 rewrite (dltb_trans _ _ _ Hpq Hlt') in Hlt. discriminate Hlt.
              ** eapply Hmin; eassumption.
           ++ intros [|j'] q' Hj' Hq'; cbn in Hq'.
              ** injection Hq' as <-.
                 destruct (dleb (squared_distance p x y) (squared_distance q x y))
                   eqn:Hpq; [|reflexivity].
                 rewrite (dleb_dltb_trans _ _ _ Hpq Hlt') in Hlt. discriminate Hlt.
              ** eapply Hfirst; [|eassumption]. lia.
      * destruct IH as [Hi Hall]. split; [assumption | now constructor].
Qed.

(** The index the loop finds is an index of the trajectory, so
    [points.at(index)] does not throw. *)
Lemma nearest_index_in_range (x y : double) (points : list TrajectoryPoint) (k : nat) :
  nearest_index_from 0 points x y DBL_MAX None = Some k ->
  (k < length points)%nat.
Proof.
  intros H. pose proof (nearest_index_from_spec x y points 0 DBL_MAX None) as Hs.
  rewrite H in Hs. destruct Hs as [[Hk _] | (j & p & -> & Hp & _)]; [discriminate|].
  apply lookup_lt_Some in Hp. lia.
Qed.

(** X1.  [get_z_pose_from_trajectory] returns the height of the trajectory
    point whose squared distance to (x, y), as the loop computes it in
    [double] arithmetic, is the least, the first one among the points of
    equal computed distance, provided the computed distance of some point
    is below the largest [double]: no point has a smaller computed distance
    than the point chosen, and none before it has a computed distance that
    is smaller or equal. *)
Theorem get_z_pose_is_height_of_first_nearest_point :
  forall (env : Env) (n : Node env) (x y : double) (points : Trajectory),
    current_trajectory_ptr_ n = Some points ->
    (exists q, In q points /\ dltb (squared_distance q x y) DBL_MAX = true) ->
    exists (i : nat) (p : TrajectoryPoint),
      points !! i = Some p /\
      get_z_pose_from_trajectory n x y = pz (point_position p) /\
      dltb (squared_distance p x y) DBL_MAX = true /\
      (forall j q, points !! j = Some q ->
                   dltb (squared_distance q x y) (squared_distance p x y) = false) /\
      (forall j q, (j < i)%nat -> points !! j = Some q ->
                   dleb (squared_distance q x y) (squared_distance p x y) = false).
Proof.
  intros env n x y points Htraj (q0 & Hin & Hq0).
  unfold get_z_pose_from_trajectory. rewrite Htraj. cbv zeta.
  pose proof (nearest_index_from_spec x y points 0 DBL_MAX None) as Hs.
  destruct (nearest_index_from 0 points x y DBL_MAX None) as [k|].
  - destruct Hs as [[Hk _] | (j & p & -> & Hp & Hlt & Hmin & Hfirst)]; [discriminate|].
    rewrite Nat.add_0_l, Hp. exists j, p. repeat split; assumption.
  - destruct Hs as [_ Hall]. rewrite List.Forall_forall in Hall.
    specialize (Hall q0 Hin). rewrite Hall in Hq0. discriminate Hq0.
Qed.

Lemma get_z_pose_is_height_of_first_nearest_point_witness :
  exists (i : nat) (p : TrajectoryPoint),
    climbing_trajectory !! i = Some p /\
    get_z_pose_from_trajectory line_node (dz 6) (dz 1) = pz (point_position p) /\
    dltb (squared_distance p (dz 6) (dz 1)) DBL_MAX = true /\
    (forall j q, climbing_trajectory !! j = Some q ->
                 dltb (squared_distance q (dz 6) (dz 1))
                   (squared_distance p (dz 6) (dz 1)) = false) /\
    (forall j q, (j < i)%nat -> climbing_trajectory !! j = Some q ->
                 dleb (squared_distance q (dz 6) (dz 1))
                   (squared_distance p (dz 6) (dz 1)) = false).
Proof.
  apply (get_z_pose_is_height_of_first_nearest_point line_env line_node (dz 6) (dz 1)
           climbing_trajectory).
  - reflexivity.
  - eexists. split; [left; reflexivity|]. vm_compute. reflexivity.
Defined.

(** On the climbing trajectory the point at x = 5 is nearest to (6, 1) and,
    being the earlier one, wins the tie at (7.5, 0).  Of the two points
    (1, 2^-30) and (1, 0) the second is nearer to the origin, but both
    computed distances are 1 and the height is that of the first. *)
Example get_z_pose_on_climbing_trajectory :
  get_z_pose_from_trajectory line_node (dz 6) (dz 1) = dz 11 /\
  get_z_pose_from_trajectory line_node (double_literal 15 2) (dz 0) = dz 11 /\
  squared_distance (default far_point (close_trajectory !! 0%nat)) (dz 0) (dz 0) = dz 1 /\
  squared_distance (default far_point (close_trajectory !! 1%nat)) (dz 0) (dz 0) = dz 1 /\
  get_z_pose_from_trajectory (on_trajectory close_trajectory line_node) (dz 0) (dz 0)
  = dz 1.
Proof. repeat split; vm_compute; reflexivity. Qed.

(** Near the largest [double] the computed distance decides: the point at
    x = 2^512 - 2^459, y = 2^459 and the query at x = -(2^458 - 2^405),
    y = 0 are at a squared distance that is not below [DBL_MAX], but the
    computed one, (2^53 - 2) * 2^971, is, and the height of the point is
    returned. *)
Example get_z_pose_near_DBL_MAX :
  (value DBL_MAX == inject_Z ((2 ^ 53 - 1) * 2 ^ 971))%Q /\
  (value (px (point_position far_point)) == inject_Z (2 ^ 512 - 2 ^ 459))%Q /\
  (value far_x == inject_Z (- (2 ^ 458 - 2 ^ 405)))%Q /\
  (value (py (point_position far_point)) == inject_Z (2 ^ 459))%Q /\
  ((2 ^ 53 - 1) * 2 ^ 971
   <= (2 ^ 512 - 2 ^ 459 + (2 ^ 458 - 2 ^ 405)) ^ 2 + (2 ^ 459) ^ 2)%Z /\
  squared_distance far_point far_x dzero = S754_finite false (2 ^ 53 - 2) 971 /\
  dltb (squared_distance far_point far_x dzero) DBL_MAX = true /\
  get_z_pose_from_trajectory (on_trajectory [far_point] line_node) far_x dzero = dz 7.
Proof.
  repeat split; try (vm_compute; reflexivity).
  vm_compute. intros H. discriminate H.
Qed.

(** X2.  [get_z_pose_from_trajectory] returns zero when no trajectory has
    been received, and when no point of the trajectory has a computed
    squared distance below the largest [double], as for a trajectory without
    points or one whose distances overflow or are not numbers. *)
Theorem get_z_pose_zero_without_near_point :
  forall (env : Env) (n : Node env) (x y : double),
    (current_trajectory_ptr_ n = None -> get_z_pose_from_trajectory n x y = dzero) /\
    (current_trajectory_ptr_ n = Some [] -> get_z_pose_from_trajectory n x y = dzero) /\
    (forall points,
        current_trajectory_ptr_ n = Some points ->
        (forall q, In q points -> dltb (squared_distance q x y) DBL_MAX = false) ->
        get_z_pose_from_trajectory n x y = dzero).
Proof.
  intros env n x y. unfold get_z_pose_from_trajectory.
  split; [intros ->; reflexivity|]. split; [intros ->; reflexivity|].
  intros points -> Hfar. cbv zeta.
  pose proof (nearest_index_from_spec x y points 0 DBL_MAX None) as Hs.
  destruct (nearest_index_from 0 points x y DBL_MAX None) as [k|]; [|reflexivity].
  destruct Hs as [[Hk _] | (j & p & _ & Hp & Hlt & _)]; [discriminate|].
  rewrite Hfar in Hlt; [discriminate Hlt|].
  apply list_elem_of_In. eapply list_elem_of_lookup_2; eassumption.
Qed.

(** ** Control mode requests *)

(** X3.  [on_control_mode_request] succeeds exactly for the requests
    [MANUAL] and [AUTONOMOUS]; it then sets the control mode to the report
    value of the requested mode and changes nothing else.  Any other request
    fails and leaves the node as it is. *)
Theorem control_mode_request_supported_or_unchanged :
  forall (env : Env) (request_mode : Z) (n : Node env),
    let r := on_control_mode_request request_mode n in
    (snd r = true <->
     request_mode = Request_MANUAL env \/ request_mode = Request_AUTONOMOUS env) /\
    (snd r = false -> fst r = n) /\
    (request_mode = Request_MANUAL env ->
     fst r = set_control_mode (ControlModeReport_MANUAL env) n) /\
    (request_mode = Request_AUTONOMOUS env ->
     request_mode <> Request_MANUAL env ->
     fst r = set_control_mode (ControlModeReport_AUTONOMOUS env) n).
Proof.
  intros env m n r. subst r. unfold on_control_mode_request.
  destruct (Z.eqb_spec m (Request_MANUAL env)) as [Hm | Hm];
    [|destruct (Z.eqb_spec m (Request_AUTONOMOUS env)) as [Ha | Ha]]; cbn.
  - repeat split; intros; try tauto; try discriminate; congruence.
  - repeat split; intros; try tauto; try discriminate; congruence.
  - repeat split; intros; try discriminate; try congruence; tauto.
Qed.

(** ** Waiting for the transform *)

Lemma get_transform_msg_S (env : Env) (fuel : nat) (buffer : TfBuffer env)
    (parent child : string) :
  get_transform_msg (S fuel) buffer parent child
  = match lookupTransform env buffer parent child with
    | Some transform => Some (transform, buffer, O)
    | None =>
        match get_transform_msg fuel (sleep_for env buffer) parent child with
        | Some (transform, buffer', errors) => Some (transform, buffer', S errors)
        | None => None
        end
    end.
Proof. reflexivity. Qed.

(** The loop returns once a lookup succeeds: after [k] failures, with more
    than [k] rounds. *)
Lemma get_transform_msg_after_sleeps (env : Env) (parent child : string)
    (k : nat) :
  forall (buffer : TfBuffer env) (transform : TransformStamped) (fuel : nat),
    (forall j, (j < k)%nat ->
               lookupTransform env (Nat.iter j (sleep_for env) buffer)
                 parent child = None) ->
    lookupTransform env (Nat.iter k (sleep_for env) buffer) parent child
      = Some transform ->
    (k < fuel)%nat ->
    get_transform_msg fuel buffer parent child
      = Some (transform, Nat.iter k (sleep_for env) buffer, k).
Proof.
  induction k as [|k IH]; intros buffer transform fuel Hfail Hok Hfuel.
  - destruct fuel as [|fuel]; [lia|]. rewrite get_transform_msg_S.
    cbn [Nat.iter nat_rect] in Hok |- *. now rewrite Hok.
  - destruct fuel as [|fuel]; [lia|]. rewrite get_transform_msg_S.
    pose proof (Hfail 0%nat ltac:(lia)) as H0. cbn [Nat.iter nat_rect] in H0. rewrite H0.
    rewrite Nat.iter_succ_r in Hok |- *.
    rewrite (IH (sleep_for env buffer) transform fuel); [reflexivity| |exact Hok|lia].
    intros j Hj. rewrite <- Nat.iter_succ_r. apply Hfail. lia.
Qed.

(** X4.  [get_transform_msg] returns the transform of the first lookup that
    does not throw: if the lookup throws in the buffer at the call and after
    each of the first [k - 1] sleeps, and yields a transform after [k]
    sleeps, then with more than [k] rounds the loop returns that transform
    after logging [k] errors.  While every lookup throws it does not
    return. *)
Theorem get_transform_msg_first_success :
  forall (env : Env) (buffer : TfBuffer env) (parent child : string),
    (forall (k : nat) (transform : TransformStamped) (fuel : nat),
        (forall j, (j < k)%nat ->
                   lookupTransform env (Nat.iter j (sleep_for env) buffer)
                     parent child = None) ->
        lookupTransform env (Nat.iter k (sleep_for env) buffer) parent child
          = Some transform ->
        (k < fuel)%nat ->
        get_transform_msg fuel buffer parent child
          = Some (transform, Nat.iter k (sleep_for env) buffer, k)) /\
    ((forall j, lookupTransform env (Nat.iter j (sleep_for env) buffer)
                  parent child = None) ->
     forall fuel, get_transform_msg fuel buffer parent child = None).
Proof.
  intros env buffer parent child. split.
  - intros k transform fuel. apply get_transform_msg_after_sleeps.
  - intros Hfail fuel. revert buffer Hfail.
    induction fuel as [|fuel IH]; intros buffer Hfail; [reflexivity|].
    rewrite get_transform_msg_S.
    pose proof (Hfail 0%nat) as H0. cbn [Nat.iter nat_rect] in H0. rewrite H0.
    rewrite IH; [reflexivity|].
    intros j. rewrite <- Nat.iter_succ_r. apply Hfail.
Qed.

(** ** The initial state *)

(** X5.  What [set_initial_state] reads of its arguments.  The node it
    leaves depends on the pose only through x, y and the yaw of the
    orientation: the height, which [set_initial_state_with_transform]
    computes, is not used, and two poses that agree on x, y and yaw give the
    same node.  The model [IDEAL_STEER_VEL] does not take the velocity of the
    twist either.  The state vector starts with x, y and yaw and has 3, 4, 5
    or 6 entries by the model type; the gear and the input of the model are
    kept, and the node is initialised. *)
Theorem set_initial_state_vector :
  forall (env : Env) (p : Pose (Quaternion env)) (twist : Twist) (n : Node env),
    let n' := set_initial_state p twist n in
    let x := px (position p) in
    let y := py (position p) in
    let yaw := getYaw env (orientation p) in
    let vx := linear_x twist in
    is_initialized_ n' = true /\
    interface (vehicle_model_ptr_ n') = interface (vehicle_model_ptr_ n) /\
    (exists rest, state_ (vehicle_model_ptr_ n') = x :: y :: yaw :: rest /\
                  (rest = [] \/ rest = [vx] \/ rest = [vx; dzero] \/
                   rest = [vx; dzero; dzero])) /\
    length (state_ (vehicle_model_ptr_ n'))
    = match vehicle_model_type_ n with
      | SimplePlanningSimulator.IDEAL_STEER_VEL => 3%nat
      | SimplePlanningSimulator.IDEAL_STEER_ACC
      | SimplePlanningSimulator.IDEAL_STEER_ACC_GEARED => 4%nat
      | SimplePlanningSimulator.DELAY_STEER_VEL => 5%nat
      | SimplePlanningSimulator.DELAY_STEER_ACC
      | SimplePlanningSimulator.DELAY_STEER_ACC_GEARED => 6%nat
      end /\
    (forall p2 : Pose (Quaternion env),
        px (position p2) = x -> py (position p2) = y ->
        getYaw env (orientation p2) = yaw ->
        set_initial_state p2 twist n = n') /\
    (vehicle_model_type_ n = SimplePlanningSimulator.IDEAL_STEER_VEL ->
     forall twist2 : Twist, set_initial_state p twist2 n = n').
Proof.
  intros env p twist n n' x y yaw vx. subst n' x y yaw vx.
  unfold set_initial_state. cbv zeta. node_simpl.
  split; [reflexivity|]. split; [reflexivity|].
  split; [destruct (vehicle_model_type_ n); eexists; (split; [reflexivity|tauto])|].
  split; [destruct (vehicle_model_type_ n); reflexivity|].
  split.
  - intros p2 -> -> ->. reflexivity.
  - intros -> twist2. reflexivity.
Qed.

(** X6.  Before any initial pose has been received, [on_initialtwist]
    returns at once: the node is unchanged, the transform buffer is not
    consulted (no rounds are needed), and the node is not initialised by
    it. *)
Theorem on_initialtwist_without_pose :
  forall (env : Env) (fuel : nat) (msg : Twist) (n : Node env),
    initial_pose_ n = None ->
    on_initialtwist fuel msg n = Some n.
Proof.
  intros env fuel msg n H. unfold on_initialtwist. now rewrite H.
Qed.

Lemma on_initialtwist_without_pose_witness :
  on_initialtwist 0 {| linear_x := dz 3 |} line_node = Some line_node.
Proof.
  apply (on_initialtwist_without_pose line_env 0 {| linear_x := dz 3 |} line_node).
  reflexivity.
Defined.

(** The pose with the translation of a transform added to its position, as
    [set_initial_state_with_transform] forms it. *)
Lemma set_initial_state_with_transform_after_sleeps (env : Env) (k fuel : nat)
    (ps : PoseStamped (Quaternion env)) (twist : Twist) (n : Node env)
    (transform : TransformStamped) :
  (forall j, (j < k)%nat ->
             lookupTransform env (Nat.iter j (sleep_for env) (tf_buffer_ n))
               (origin_frame_id_ n) (frame_id ps) = None) ->
  lookupTransform env (Nat.iter k (sleep_for env) (tf_buffer_ n))
    (origin_frame_id_ n) (frame_id ps) = Some transform ->
  (k < fuel)%nat ->
  set_initial_state_with_transform fuel ps twist n
  = Some (set_initial_state
            {| position :=
                 {| px := dadd (px (position (pose ps))) (px (translation transform));
                    py := dadd (py (position (pose ps))) (py (translation transform));
                    pz := dadd (pz (position (pose ps))) (pz (translation transform)) |};
               orientation := orientation (pose ps) |}
            twist
            (set_tf_buffer (Nat.iter k (sleep_for env) (tf_buffer_ n)) n)).
Proof.
  intros Hfail Hok Hfuel. unfold set_initial_state_with_transform.
  now rewrite (get_transform_msg_after_sleeps env _ _ k _ transform fuel Hfail Hok Hfuel).
Qed.

Lemma set_initial_state_with_transform_initial_pose (env : Env) (fuel : nat)
    (ps : PoseStamped (Quaternion env)) (twist : Twist) (n n' : Node env) :
  set_initial_state_with_transform fuel ps twist n = Some n' ->
  initial_pose_ n' = initial_pose_ n /\ is_initialized_ n' = true /\
  origin_frame_id_ n' = origin_frame_id_ n.
Proof.
  unfold set_initial_state_with_transform.
  destruct (get_transform_msg fuel (tf_buffer_ n) (origin_frame_id_ n) (frame_id ps))
    as [[[t b] e]|]; [|discriminate].
  intros [= <-]. repeat split.
Qed.

(** X7.  [on_set_pose] initialises the node and does not record the pose.
    When the transform from the origin frame to the frame of the request
    becomes available after [k] sleeps, the callback returns (with more than
    [k] rounds), the node is initialised, and [initial_pose_] stays as it
    was; on a node that has received no initial pose, an initial twist that
    follows the service call is therefore still ignored. *)
Theorem on_set_pose_does_not_record_pose :
  forall (env : Env) (k fuel fuel' : nat) (request : PoseStamped (Quaternion env))
         (twist : Twist) (n : Node env) (transform : TransformStamped),
    (forall j, (j < k)%nat ->
               lookupTransform env (Nat.iter j (sleep_for env) (tf_buffer_ n))
                 (origin_frame_id_ n) (frame_id request) = None) ->
    lookupTransform env (Nat.iter k (sleep_for env) (tf_buffer_ n))
      (origin_frame_id_ n) (frame_id request) = Some transform ->
    (k < fuel)%nat ->
    exists n' : Node env,
      on_set_pose fuel request n = Some n' /\
      is_initialized_ n' = true /\
      initial_pose_ n' = initial_pose_ n /\
      (initial_pose_ n = None -> on_initialtwist fuel' twist n' = Some n').
Proof.
  intros env k fuel fuel' request twist n transform Hfail Hok Hfuel.
  unfold on_set_pose. cbv zeta.
  rewrite (set_initial_state_with_transform_after_sleeps env k fuel
             {| frame_id := frame_id request; pose := pose request |} zero_twist n
             transform Hfail Hok Hfuel).
  eexists. split; [reflexivity|]. split; [reflexivity|]. split; [reflexivity|].
  intros Hnone. apply on_initialtwist_without_pose. exact Hnone.
Qed.

Lemma on_set_pose_does_not_record_pose_witness :
  exists n' : Node line_env,
    on_set_pose 3 map_pose line_node = Some n' /\
    is_initialized_ n' = true /\
    initial_pose_ n' = initial_pose_ line_node /\
    (initial_pose_ line_node = None ->
     on_initialtwist 0 {| linear_x := dz 5 |} n' = Some n').
Proof.
  apply (on_set_pose_does_not_record_pose line_env 2 3 0 map_pose
           {| linear_x := dz 5 |} line_node
           {| translation := {| px := dz 1; py := dz 2; pz := dzero |} |}).
  - intros [|[|j]] Hj; [reflexivity | reflexivity | lia].
  - reflexivity.
  - lia.
Defined.

(** X8.  After [on_initialpose], an initial twist re-initialises the node
    from the recorded pose.  When the transform from the origin frame to the
    frame of the pose becomes available after [k] sleeps, and is available
    again [k'] sleeps later, both callbacks return; [on_initialpose] records
    the pose, and [on_initialtwist] looks the transform up again, adds its
    translation to the position of the recorded pose, keeps the orientation
    of the pose, takes the velocity of the twist and stores the twist. *)
Theorem on_initialtwist_uses_recorded_pose :
  forall (env : Env) (k k' fuel fuel' : nat) (msg : PoseStamped (Quaternion env))
         (twist : Twist) (n : Node env) (transform transform' : TransformStamped),
    let buffer := Nat.iter k (sleep_for env) (tf_buffer_ n) in
    let buffer' := Nat.iter k' (sleep_for env) buffer in
    (forall j, (j < k)%nat ->
               lookupTransform env (Nat.iter j (sleep_for env) (tf_buffer_ n))
                 (origin_frame_id_ n) (frame_id msg) = None) ->
    lookupTransform env buffer (origin_frame_id_ n) (frame_id msg) = Some transform ->
    (k < fuel)%nat ->
    (forall j, (j < k')%nat ->
               lookupTransform env (Nat.iter j (sleep_for env) buffer)
                 (origin_frame_id_ n) (frame_id msg) = None) ->
    lookupTransform env buffer' (origin_frame_id_ n) (frame_id msg) = Some transform' ->
    (k' < fuel')%nat ->
    exists n1 n2 : Node env,
      on_initialpose fuel msg n = Some n1 /\
      on_initialtwist fuel' twist n1 = Some n2 /\
      initial_pose_ n1 = Some msg /\
      n2 = set_initial_twist twist
             (set_initial_state
                {| position :=
                     {| px := dadd (px (position (pose msg))) (px (translation transform'));
                        py := dadd (py (position (pose msg))) (py (translation transform'));
                        pz := dadd (pz (position (pose msg))) (pz (translation transform')) |};
                   orientation := orientation (pose msg) |}
                twist (set_tf_buffer buffer' n1)) /\
      is_initialized_ n2 = true /\
      initial_twist_ n2 = twist /\
      initial_pose_ n2 = Some msg.
Proof.
  intros env k k' fuel fuel' msg twist n transform transform' buffer buffer'
    Hfail Hok Hfuel Hfail' Hok' Hfuel'.
  unfold on_initialpose. cbv zeta.
  rewrite (set_initial_state_with_transform_after_sleeps env k fuel
             {| frame_id := frame_id msg; pose := pose msg |} zero_twist n
             transform Hfail Hok Hfuel).
  fold buffer. eexists. eexists. split; [reflexivity|].
  unfold on_initialtwist. cbn [initial_pose_ set_initial_pose]. cbv zeta.
  rewrite (set_initial_state_with_transform_after_sleeps env k' fuel'
             {| frame_id := frame_id msg; pose := pose msg |} twist _ transform').
  - repeat split.
  - exact Hfail'.
  - exact Hok'.
  - exact Hfuel'.
Qed.

Lemma on_initialtwist_uses_recorded_pose_witness :
  exists n1 n2 : Node line_env,
    on_initialpose 3 map_pose line_node = Some n1 /\
    on_initialtwist 1 {| linear_x := dz 5 |} n1 = Some n2 /\
    initial_pose_ n1 = Some map_pose /\
    is_initialized_ n2 = true /\
    initial_twist_ n2 = {| linear_x := dz 5 |} /\
    state_ (vehicle_model_ptr_ n2) = [dz 4; dz 6; double_literal 1 2; dz 5] /\
    tf_buffer_ n2 = 2%nat.
Proof.
  destruct (on_initialtwist_uses_recorded_pose line_env 2 0 3 1 map_pose
              {| linear_x := dz 5 |} line_node
              {| translation := {| px := dz 1; py := dz 2; pz := dzero |} |}
              {| translation := {| px := dz 1; py := dz 2; pz := dzero |} |})
    as (n1 & n2 & H1 & H2 & Hp & Hn2 & Hi & Htw & _).
  - intros [|[|j]] Hj; [reflexivity | reflexivity | lia].
  - reflexivity.
  - lia.
  - intros j Hj. lia.
  - reflexivity.
  - lia.
  - exists n1, n2. split; [exact H1|]. split; [exact H2|]. split; [exact Hp|].
    split; [exact Hi|]. split; [exact Htw|].
    rewrite Hn2. injection H1 as <-. split; vm_compute; reflexivity.
Defined.

(** The transform of the scenario is found after two sleeps. *)
Example get_transform_msg_after_two_sleeps :
  get_transform_msg (env := line_env) 3 0%nat "odom" "map"
  = Some ({| translation := {| px := dz 1; py := dz 2; pz := dzero |} |}, 2%nat, 2%nat) /\
  get_transform_msg (env := line_env) 2 0%nat "odom" "map" = None.
Proof. split; reflexivity. Qed.

(** ** The timer *)

(** The command, the gear command and the slope acceleration a tick
    uses. *)
Lemma update_vehicle_dynamics_model (env : Env) (dt acc_by_slope : double)
    (n : Node env) :
  let autonomous := (current_control_mode_ n =? ControlModeReport_AUTONOMOUS env)%Z in
  let cmd := if autonomous then current_ackermann_cmd_ n
             else current_manual_ackermann_cmd_ n in
  let gear := if autonomous then current_gear_cmd_ n else current_manual_gear_cmd_ n in
  let m :=
    {| interface :=
         SimplePlanningSimulator.vehicle_model_ptr_
           (SimplePlanningSimulator.set_input (GearCommand_NONE env)
              (GearCommand_REVERSE env) (GearCommand_REVERSE_2 env)
              {| SimplePlanningSimulator.vehicle_model_type_ := vehicle_model_type_ n;
                 SimplePlanningSimulator.vehicle_model_ptr_ :=
                   SimplePlanningSimulator.setGear gear (interface (vehicle_model_ptr_ n)) |}
              cmd acc_by_slope);
       state_ := state_ (vehicle_model_ptr_ n) |} in
  update_vehicle_dynamics dt acc_by_slope n
  = set_vehicle_model (if simulate_motion_ n then update env dt m else m) n.
Proof.
  cbv zeta. unfold update_vehicle_dynamics.
  destruct (current_control_mode_ n =? ControlModeReport_AUTONOMOUS env)%Z;
    cbn; destruct (simulate_motion_ n); reflexivity.
Qed.

(** The input vector [set_input] forms for a model that has just been given
    the gear [gear]. *)
Lemma set_input_vector (env : Env) (ty : SimplePlanningSimulator.VehicleModelType)
    (i : SimplePlanningSimulator.SimModelInterface) (gear : Z)
    (cmd : SimplePlanningSimulator.AckermannControlCommand) (acc_by_slope : double) :
  SimplePlanningSimulator.input_
    (SimplePlanningSimulator.vehicle_model_ptr_
       (SimplePlanningSimulator.set_input (GearCommand_NONE env)
          (GearCommand_REVERSE env) (GearCommand_REVERSE_2 env)
          {| SimplePlanningSimulator.vehicle_model_type_ := ty;
             SimplePlanningSimulator.vehicle_model_ptr_ :=
               SimplePlanningSimulator.setGear gear i |}
          cmd acc_by_slope))
  = (if SimplePlanningSimulator.is_velocity_model ty
     then [to_double (SimplePlanningSimulator.speed
                        (SimplePlanningSimulator.longitudinal cmd));
           to_double (SimplePlanningSimulator.steering_tire_angle
                        (SimplePlanningSimulator.lateral cmd))]
     else [to_double
             (SimplePlanningSimulator.input_acc (GearCommand_NONE env)
                (GearCommand_REVERSE env) (GearCommand_REVERSE_2 env) gear
                (SimplePlanningSimulator.acceleration
                   (SimplePlanningSimulator.longitudinal cmd))
                acc_by_slope);
           to_double (SimplePlanningSimulator.steering_tire_angle
                        (SimplePlanningSimulator.lateral cmd))]).
Proof.
  unfold SimplePlanningSimulator.set_input. cbn. destruct ty; reflexivity.
Qed.

(** X9.  What a tick hands to the vehicle model.  In the control mode
    [AUTONOMOUS] the gear and the control command are the autonomous ones, in
    every other mode the manual ones; the model gets that gear first and
    then the input [set_input] forms from that gear, that command and the
    slope acceleration (the acceleration as the [float] of [input_acc], and
    every component converted to [double]), its state vector untouched, and
    is then updated by the time step if and only if motion is simulated.
    With the gear command [NONE] an acceleration model gets the acceleration
    zero. *)
Theorem on_timer_vehicle_input :
  forall (env : Env) (dt : double) (n : Node env),
    is_initialized_ n = true ->
    let autonomous := (current_control_mode_ n =? ControlModeReport_AUTONOMOUS env)%Z in
    let cmd := if autonomous then current_ackermann_cmd_ n
               else current_manual_ackermann_cmd_ n in
    let gear := if autonomous then current_gear_cmd_ n else current_manual_gear_cmd_ n in
    let acc_by_slope :=
      if enable_road_slope_simulation_ n
      then dmul (dopp (double_literal 981 100))
             (sin env (calculate_ego_pitch env (road_lanelets_ n) (vehicle_model_ptr_ n)))
      else dzero in
    let steer :=
      to_double (SimplePlanningSimulator.steering_tire_angle
                   (SimplePlanningSimulator.lateral cmd)) in
    exists m : VehicleModel,
      vehicle_model_ptr_ (fst (on_timer dt n))
      = (if simulate_motion_ n then update env dt m else m) /\
      getGear m = gear /\
      state_ m = state_ (vehicle_model_ptr_ n) /\
      SimplePlanningSimulator.input_ (interface m)
      = (if SimplePlanningSimulator.is_velocity_model (vehicle_model_type_ n)
         then [to_double (SimplePlanningSimulator.speed
                            (SimplePlanningSimulator.longitudinal cmd));
               steer]
         else [to_double
                 (SimplePlanningSimulator.input_acc (GearCommand_NONE env)
                    (GearCommand_REVERSE env) (GearCommand_REVERSE_2 env) gear
                    (SimplePlanningSimulator.acceleration
                       (SimplePlanningSimulator.longitudinal cmd))
                    acc_by_slope);
               steer]) /\
      (gear = GearCommand_NONE env ->
       SimplePlanningSimulator.is_acceleration_model (vehicle_model_type_ n) = true ->
       SimplePlanningSimulator.input_ (interface m) = [dzero; steer]).
Proof.
  intros env dt n Hinit autonomous cmd gear acc_by_slope steer.
  unfold on_timer. rewrite Hinit. cbn [negb fst].
  rewrite update_vehicle_dynamics_model. fold autonomous cmd gear acc_by_slope.
  eexists. split; [reflexivity|]. split; [reflexivity|]. split; [reflexivity|].
  pose proof (set_input_vector env (vehicle_model_type_ n)
                (interface (vehicle_model_ptr_ n)) gear cmd acc_by_slope) as Hinput.
  fold steer in Hinput.
  split; [exact Hinput|].
  intros Hnone Hacc. cbn [interface]. rewrite Hinput.
  destruct (vehicle_model_type_ n); try discriminate Hacc; cbn;
    rewrite Hnone; unfold SimplePlanningSimulator.input_acc;
    rewrite Z.eqb_refl; reflexivity.
Qed.

Lemma on_timer_vehicle_input_witness :
  exists m : VehicleModel,
    vehicle_model_ptr_ (fst (on_timer (double_literal 1 40) line_node))
    = straight_update (double_literal 1 40) m /\
    getGear m = 2%Z /\
    state_ m = [dz 4; dz 0; dz 0; dz 2] /\
    SimplePlanningSimulator.input_ (interface m) = [dz 1; dzero].
Proof.
  destruct (on_timer_vehicle_input line_env (double_literal 1 40) line_node eq_refl)
    as (m & Hm & Hg & Hs & Hi & _).
  exists m. split; [exact Hm|]. split; [exact Hg|]. split; [exact Hs|].
  rewrite Hi. vm_compute. reflexivity.
Defined.

(** X10.  A tick does not read the commands of the inactive side.  In a
    control mode other than [AUTONOMOUS], a control command and a gear
    command received on the autonomous topics change neither the messages a
    tick publishes nor the node it leaves, apart from the two stored
    commands themselves; in the mode [AUTONOMOUS] the same holds for the
    manual topics. *)
Theorem on_timer_ignores_inactive_commands :
  forall (env : Env) (dt : double) (n : Node env)
         (cmd : SimplePlanningSimulator.AckermannControlCommand) (gear : Z),
    (current_control_mode_ n <> ControlModeReport_AUTONOMOUS env ->
     on_timer dt (on_gear_cmd gear (on_ackermann_cmd cmd n))
     = (on_gear_cmd gear (on_ackermann_cmd cmd (fst (on_timer dt n))),
        snd (on_timer dt n))) /\
    (current_control_mode_ n = ControlModeReport_AUTONOMOUS env ->
     on_timer dt (on_manual_gear_cmd gear (on_manual_ackermann_cmd cmd n))
     = (on_manual_gear_cmd gear (on_manual_ackermann_cmd cmd (fst (on_timer dt n))),
        snd (on_timer dt n))).
Proof.
  intros env dt n cmd gear.
  unfold on_timer. node_simpl.
  destruct (is_initialized_ n); cbn [negb fst snd].
  - rewrite !update_vehicle_dynamics_model. node_simpl.
    split; intros Hmode.
    + destruct (Z.eqb_spec (current_control_mode_ n) (ControlModeReport_AUTONOMOUS env))
        as [He | _]; [contradiction|]. reflexivity.
    + rewrite Hmode, Z.eqb_refl. reflexivity.
  - split; reflexivity.
Qed.

(** The messages of a tick, by the node it leaves. *)
Lemma on_timer_published (env : Env) (dt : double) (n : Node env) :
  is_initialized_ n = true ->
  let n' := fst (on_timer dt n) in
  snd (on_timer dt n)
  = [publish_odometry n (current_odometry_ n');
     publish_velocity n (current_velocity_ n');
     publish_steering (current_steer_ n');
     publish_acceleration n';
     publish_imu n';
     publish_control_mode_report n;
     publish_gear_report n']
    ++ publish_turn_indicators_report n
    ++ publish_hazard_lights_report n
    ++ [publish_tf n (current_odometry_ n')].
Proof.
  intros Hinit. unfold on_timer. rewrite Hinit. cbn [negb fst snd].
  rewrite update_vehicle_dynamics_model. reflexivity.
Qed.

(** The members a tick leaves as they are. *)
Lemma on_timer_members (env : Env) (dt : double) (n : Node env) :
  let n' := fst (on_timer dt n) in
  is_initialized_ n' = is_initialized_ n /\
  simulate_motion_ n' = simulate_motion_ n /\
  current_control_mode_ n' = current_control_mode_ n /\
  current_turn_indicators_cmd_ptr_ n' = current_turn_indicators_cmd_ptr_ n /\
  current_hazard_lights_cmd_ptr_ n' = current_hazard_lights_cmd_ptr_ n /\
  current_trajectory_ptr_ n' = current_trajectory_ptr_ n /\
  initial_pose_ n' = initial_pose_ n.
Proof.
  cbv zeta. unfold on_timer.
  destruct (is_initialized_ n) eqn:Hinit; cbn [negb fst].
  - rewrite update_vehicle_dynamics_model. unfold set_current_state. node_simpl.
    rewrite Hinit. repeat split.
  - rewrite Hinit. repeat split.
Qed.

(** ** The measurements of a tick *)

(** The measurements a tick stores, by the vehicle model [m] after the
    update and the five samples. *)
Lemma set_current_state_measurements (env : Env) (pitch : double) (n : Node env) :
  let n' := set_current_state pitch n in
  let m := vehicle_model_ptr_ n in
  let o := current_odometry_ n' in
  let rpy := createQuaternionFromRPY env dzero pitch (getModelYaw env m) in
  let noise := measurement_noise_ n in
  let d1 := draw env (SimplePlanningSimulator.pos_dist_ _ noise) (rand_engine_ n) in
  let d2 := draw env (SimplePlanningSimulator.pos_dist_ _ noise) (snd d1) in
  let d3 := draw env (SimplePlanningSimulator.vel_dist_ _ noise) (snd d2) in
  let d4 := draw env (SimplePlanningSimulator.rpy_dist_ _ noise) (snd d3) in
  let d5 := draw env (SimplePlanningSimulator.steer_dist_ _ noise) (snd d4) in
  vehicle_model_ptr_ n' = m /\
  pose_position_z o = get_z_pose_from_trajectory n (getX env m) (getY env m) /\
  SimplePlanningSimulator.twist_angular_z (odom o) = getWz env m /\
  SimplePlanningSimulator.heading_rate (current_velocity_ n') = to_float (getWz env m) /\
  SimplePlanningSimulator.lateral_velocity (current_velocity_ n') = fzero /\
  (add_measurement_noise_ n = false ->
   SimplePlanningSimulator.pose_position_x (odom o) = getX env m /\
   SimplePlanningSimulator.pose_position_y (odom o) = getY env m /\
   SimplePlanningSimulator.pose_orientation (odom o) = rpy /\
   SimplePlanningSimulator.twist_linear_x (odom o) = getVx env m /\
   SimplePlanningSimulator.longitudinal_velocity (current_velocity_ n')
   = to_float (getVx env m) /\
   SimplePlanningSimulator.report_steering_tire_angle (current_steer_ n')
   = to_float (getSteer env m) /\
   rand_engine_ n' = rand_engine_ n) /\
  (add_measurement_noise_ n = true ->
   SimplePlanningSimulator.pose_position_x (odom o) = dadd (getX env m) (fst d1) /\
   SimplePlanningSimulator.pose_position_y (odom o) = dadd (getY env m) (fst d2) /\
   SimplePlanningSimulator.pose_orientation (odom o)
   = createQuaternionFromYaw env
       (dadd (getYaw env rpy) (to_double (to_float (fst d4)))) /\
   SimplePlanningSimulator.twist_linear_x (odom o) = dadd (getVx env m) (fst d3) /\
   SimplePlanningSimulator.longitudinal_velocity (current_velocity_ n')
   = to_float (dadd (to_double (to_float (getVx env m))) (fst d3)) /\
   SimplePlanningSimulator.report_steering_tire_angle (current_steer_ n')
   = to_float (dadd (to_double (to_float (getSteer env m))) (fst d5)) /\
   rand_engine_ n' = snd d5).
Proof.
  cbv zeta. unfold set_current_state. node_simpl.
  destruct (add_measurement_noise_ n).
  - unfold SimplePlanningSimulator.add_measurement_noise,
      SimplePlanningSimulator.bind, SimplePlanningSimulator.ret,
      SimplePlanningSimulator.sample.
    destruct (draw env (SimplePlanningSimulator.pos_dist_ (Dist env)
                          (measurement_noise_ n)) (rand_engine_ n)) as [nx e1].
    cbn [fst snd].
    destruct (draw env (SimplePlanningSimulator.pos_dist_ (Dist env)
                          (measurement_noise_ n)) e1) as [ny e2].
    cbn [fst snd].
    destruct (draw env (SimplePlanningSimulator.vel_dist_ (Dist env)
                          (measurement_noise_ n)) e2) as [nv e3].
    cbn [fst snd].
    destruct (draw env (SimplePlanningSimulator.rpy_dist_ (Dist env)
                          (measurement_noise_ n)) e3) as [nyaw e4].
    cbn [fst snd].
    destruct (draw env (SimplePlanningSimulator.steer_dist_ (Dist env)
                          (measurement_noise_ n)) e4) as [ns e5].
    cbn. repeat split; intros; try discriminate; reflexivity.
  - cbn. repeat split; intros; try discriminate; reflexivity.
Qed.

(** X11.  The messages of one tick agree with each other.  An initialised
    node publishes, in this order, the odometry, the velocity report, the
    steering report, the acceleration, the IMU message, the control mode
    report, the gear report, the turn-indicator and hazard-light reports if a
    command has been received, and the transform.  The transform carries the
    position and the orientation of the odometry, the IMU message its
    orientation and angular velocity, and the gear report the gear of the
    vehicle model.  The heading rate of the velocity report is the angular
    twist of the odometry rounded to [float]; without measurement noise its
    longitudinal velocity is the longitudinal twist of the odometry rounded
    to [float]. *)
Theorem on_timer_publications_agree :
  forall (env : Env) (dt : double) (n : Node env),
    is_initialized_ n = true ->
    let n' := fst (on_timer dt n) in
    let o := current_odometry_ n' in
    let v := current_velocity_ n' in
    snd (on_timer dt n)
    = [PubOdometry (origin_frame_id_ n) (simulated_frame_id_ n) o;
       PubVelocity (simulated_frame_id_ n) v;
       PubSteering (current_steer_ n');
       publish_acceleration n';
       PubImu "base_link" (getAx env (vehicle_model_ptr_ n')) (xyz_diagonal (env := env))
         (SimplePlanningSimulator.twist_angular_z (odom o)) (xyz_diagonal (env := env))
         (SimplePlanningSimulator.pose_orientation (odom o)) (xyz_diagonal (env := env));
       PubControlModeReport (current_control_mode_ n);
       PubGearReport (getGear (vehicle_model_ptr_ n'))]
      ++ publish_turn_indicators_report n
      ++ publish_hazard_lights_report n
      ++ [PubTf (origin_frame_id_ n) (simulated_frame_id_ n)
            {| px := SimplePlanningSimulator.pose_position_x (odom o);
               py := SimplePlanningSimulator.pose_position_y (odom o);
               pz := pose_position_z o |}
            (SimplePlanningSimulator.pose_orientation (odom o))] /\
    SimplePlanningSimulator.heading_rate v
    = to_float (SimplePlanningSimulator.twist_angular_z (odom o)) /\
    SimplePlanningSimulator.lateral_velocity v = fzero /\
    (add_measurement_noise_ n = false ->
     SimplePlanningSimulator.longitudinal_velocity v
     = to_float (SimplePlanningSimulator.twist_linear_x (odom o))).
Proof.
  intros env dt n Hinit n' o v. subst o v n'.
  unfold on_timer. rewrite Hinit. cbn [negb fst snd].
  match goal with
  | |- context [set_current_state ?p ?m] =>
      pose proof (set_current_state_measurements env p m) as H; cbv zeta in H;
      destruct H as (_ & _ & Hw & Hh & Hl & Hplain & _)
  end.
  split; [|split; [congruence | split; [exact Hl|]]].
  - rewrite update_vehicle_dynamics_model. reflexivity.
  - intros Hnoise.
    rewrite update_vehicle_dynamics_model in Hplain |- *. node_simpl.
    destruct (Hplain Hnoise) as (_ & _ & _ & Hv & Hlv & _). congruence.
Qed.

Lemma on_timer_publications_agree_witness :
  let n' := fst (on_timer (double_literal 1 40) line_node) in
  length (snd (on_timer (double_literal 1 40) line_node)) = 9%nat /\
  SimplePlanningSimulator.heading_rate (current_velocity_ n')
  = to_float (SimplePlanningSimulator.twist_angular_z (odom (current_odometry_ n'))) /\
  SimplePlanningSimulator.lateral_velocity (current_velocity_ n') = fzero.
Proof.
  intros n'.
  destruct (on_timer_publications_agree line_env (double_literal 1 40) line_node eq_refl)
    as (Hp & Hh & Hl & _).
  split; [rewrite Hp; reflexivity|]. split; [exact Hh | exact Hl].
Defined.

(** X12.  The odometry, velocity and steering a tick stores.  The position,
    velocity and steering are those of the vehicle model after its update,
    the two reports rounded to [float]; the pitch of the orientation is the
    one computed before the update.  With measurement noise, five samples
    are drawn in the order position, position, velocity, yaw, steering: x
    and y get the first two, the twist of the odometry gets the third, and
    so does the velocity of the report, which is a [float] and is rounded
    again after the addition, as is the steering with the fifth; the
    orientation becomes the quaternion of the yaw alone, to which the fourth
    sample is added after a cast to [float]; and the engine is left after
    the fifth draw.  In both cases the height is looked up at the position
    without noise and the angular velocity is that of the model. *)
Theorem on_timer_measurements :
  forall (env : Env) (dt : double) (n : Node env),
    is_initialized_ n = true ->
    let pitch := calculate_ego_pitch env (road_lanelets_ n) (vehicle_model_ptr_ n) in
    let n' := fst (on_timer dt n) in
    let m := vehicle_model_ptr_ n' in
    let o := current_odometry_ n' in
    let rpy := createQuaternionFromRPY env dzero pitch (getModelYaw env m) in
    let noise := measurement_noise_ n in
    let d1 := draw env (SimplePlanningSimulator.pos_dist_ _ noise) (rand_engine_ n) in
    let d2 := draw env (SimplePlanningSimulator.pos_dist_ _ noise) (snd d1) in
    let d3 := draw env (SimplePlanningSimulator.vel_dist_ _ noise) (snd d2) in
    let d4 := draw env (SimplePlanningSimulator.rpy_dist_ _ noise) (snd d3) in
    let d5 := draw env (SimplePlanningSimulator.steer_dist_ _ noise) (snd d4) in
    pose_position_z o = get_z_pose_from_trajectory n (getX env m) (getY env m) /\
    SimplePlanningSimulator.twist_angular_z (odom o) = getWz env m /\
    (add_measurement_noise_ n = false ->
     SimplePlanningSimulator.pose_position_x (odom o) = getX env m /\
     SimplePlanningSimulator.pose_position_y (odom o) = getY env m /\
     SimplePlanningSimulator.pose_orientation (odom o) = rpy /\
     SimplePlanningSimulator.twist_linear_x (odom o) = getVx env m /\
     current_velocity_ n' = to_velocity_report (env := env) m /\
     current_steer_ n' = to_steering_report (env := env) m /\
     rand_engine_ n' = rand_engine_ n) /\
    (add_measurement_noise_ n = true ->
     SimplePlanningSimulator.pose_position_x (odom o) = dadd (getX env m) (fst d1) /\
     SimplePlanningSimulator.pose_position_y (odom o) = dadd (getY env m) (fst d2) /\
     SimplePlanningSimulator.pose_orientation (odom o)
     = createQuaternionFromYaw env
         (dadd (getYaw env rpy) (to_double (to_float (fst d4)))) /\
     SimplePlanningSimulator.twist_linear_x (odom o) = dadd (getVx env m) (fst d3) /\
     SimplePlanningSimulator.longitudinal_velocity (current_velocity_ n')
     = to_float (dadd (to_double (to_float (getVx env m))) (fst d3)) /\
     SimplePlanningSimulator.report_steering_tire_angle (current_steer_ n')
     = to_float (dadd (to_double (to_float (getSteer env m))) (fst d5)) /\
     rand_engine_ n' = snd d5).
Proof.
  intros env dt n Hinit. cbv zeta.
  unfold on_timer. rewrite Hinit. cbn [negb fst].
  rewrite update_vehicle_dynamics_model. unfold set_current_state. node_simpl.
  destruct (add_measurement_noise_ n).
  - unfold SimplePlanningSimulator.add_measurement_noise,
      SimplePlanningSimulator.bind, SimplePlanningSimulator.ret,
      SimplePlanningSimulator.sample.
    destruct (draw env (SimplePlanningSimulator.pos_dist_ (Dist env)
                          (measurement_noise_ n)) (rand_engine_ n)) as [nx e1].
    cbn [fst snd].
    destruct (draw env (SimplePlanningSimulator.pos_dist_ (Dist env)
                          (measurement_noise_ n)) e1) as [ny e2].
    cbn [fst snd].
    destruct (draw env (SimplePlanningSimulator.vel_dist_ (Dist env)
                          (measurement_noise_ n)) e2) as [nv e3].
    cbn [fst snd].
    destruct (draw env (SimplePlanningSimulator.rpy_dist_ (Dist env)
                          (measurement_noise_ n)) e3) as [nyaw e4].
    cbn [fst snd].
    destruct (draw env (SimplePlanningSimulator.steer_dist_ (Dist env)
                          (measurement_noise_ n)) e4) as [ns e5].
    cbn. repeat split; intros; try discriminate; reflexivity.
  - cbn. repeat split; intros; try discriminate; reflexivity.
Qed.

Lemma on_timer_measurements_witness :
  let n' := fst (on_timer (double_literal 1 40) line_node) in
  let o := current_odometry_ n' in
  pose_position_z o = dz 11 /\
  SimplePlanningSimulator.pose_position_x (odom o)
  = dadd (dadd (dz 4) (dmul (double_literal 1 40) (dz 2))) (double_literal 1 100) /\
  SimplePlanningSimulator.twist_linear_x (odom o) = dadd (dz 2) (double_literal 3 100) /\
  SimplePlanningSimulator.longitudinal_velocity (current_velocity_ n')
  = to_float (dadd (dz 2) (double_literal 3 100)) /\
  rand_engine_ n' = [double_literal 6 100].
Proof.
  intros n' o. subst o n'.
  destruct (on_timer_measurements line_env (double_literal 1 40) line_node eq_refl)
    as (Hz & _ & _ & Hnoise).
  destruct (Hnoise eq_refl) as (Hx & _ & _ & Ht & Hv & _ & He).
  split; [rewrite Hz; vm_compute; reflexivity|].
  split; [rewrite Hx; vm_compute; reflexivity|].
  split; [rewrite Ht; vm_compute; reflexivity|].
  split; [rewrite Hv; vm_compute; reflexivity|].
  rewrite He. reflexivity.
Defined.

(** X13.  The pose covariance of the odometry of a tick: of the entries of
    the array, the tick writes the two diagonal entries of x and y, with the
    members [x_stddev_] and [y_stddev_] as they are; every other entry keeps
    the zero of a fresh message. *)
Theorem on_timer_pose_covariance :
  forall (env : Env) (dt : double) (n : Node env),
    is_initialized_ n = true ->
    let c := pose_covariance (current_odometry_ (fst (on_timer dt n))) in
    c !! XYZRPY_Y_Y env = Some (y_stddev_ n) /\
    (XYZRPY_X_X env <> XYZRPY_Y_Y env -> c !! XYZRPY_X_X env = Some (x_stddev_ n)) /\
    (forall k, k <> XYZRPY_X_X env -> k <> XYZRPY_Y_Y env -> c !! k = None).
Proof.
  intros env dt n Hinit. cbv zeta.
  unfold on_timer. rewrite Hinit. cbn [negb fst].
  rewrite update_vehicle_dynamics_model. unfold set_current_state. node_simpl.
  cbn [pose_covariance to_odometry].
  split; [apply lookup_insert_eq|]. split.
  - intros Hne. rewrite lookup_insert_ne by congruence. apply lookup_insert_eq.
  - intros k Hx Hy. rewrite !lookup_insert_ne by congruence. apply lookup_empty.
Qed.

Lemma on_timer_pose_covariance_witness :
  let c := pose_covariance
             (current_odometry_ (fst (on_timer (double_literal 1 40) line_node))) in
  c !! 7%Z = Some (double_literal 1 10000) /\
  c !! 0%Z = Some (double_literal 1 10000) /\ c !! 35%Z = None.
Proof.
  intros c.
  destruct (on_timer_pose_covariance line_env (double_literal 1 40) line_node eq_refl)
    as (Hy & Hx & Hk).
  split; [exact Hy|]. split; [apply Hx; discriminate|].
  apply Hk; discriminate.
Defined.

(** ** The optional reports *)

(** X14.  The turn-indicator report and the hazard-light report of a tick
    echo the last command received: a tick that follows a command publishes
    exactly the report of that command, whatever was stored before, and a
    node that has received no command publishes no such report. *)
Theorem reports_echo_last_command :
  forall (env : Env) (dt : double) (n : Node env) (c r : Z),
    (In (PubTurnIndicatorsReport r) (snd (on_timer dt (on_turn_indicators_cmd c n)))
     <-> is_initialized_ n = true /\ r = c) /\
    (In (PubHazardLightsReport r) (snd (on_timer dt (on_hazard_lights_cmd c n)))
     <-> is_initialized_ n = true /\ r = c) /\
    (current_turn_indicators_cmd_ptr_ n = None ->
     ~ In (PubTurnIndicatorsReport r) (snd (on_timer dt n))) /\
    (current_hazard_lights_cmd_ptr_ n = None ->
     ~ In (PubHazardLightsReport r) (snd (on_timer dt n))).
Proof.
  intros env dt n c r.
  assert (Hun : forall n0 : Node env, is_initialized_ n0 = false ->
                                      snd (on_timer dt n0) = []).
  { intros n0 H0. unfold on_timer. now rewrite H0. }
  repeat split.
  - destruct (is_initialized_ n) eqn:Hinit; [reflexivity|].
    rewrite Hun in H by exact Hinit. destruct H.
  - destruct (is_initialized_ n) eqn:Hinit.
    + rewrite on_timer_published in H by exact Hinit.
      unfold publish_turn_indicators_report, publish_hazard_lights_report in H.
      cbn in H. destruct (current_hazard_lights_cmd_ptr_ n); cbn in H;
        repeat (destruct H as [H | H]; try discriminate H); try contradiction;
        congruence.
    + rewrite Hun in H by exact Hinit. destruct H.
  - intros [Hinit ->]. rewrite on_timer_published by exact Hinit.
    unfold publish_turn_indicators_report. cbn. tauto.
  - destruct (is_initialized_ n) eqn:Hinit; [reflexivity|].
    rewrite Hun in H by exact Hinit. destruct H.
  - destruct (is_initialized_ n) eqn:Hinit.
    + rewrite on_timer_published in H by exact Hinit.
      unfold publish_turn_indicators_report, publish_hazard_lights_report in H.
      cbn in H. destruct (current_turn_indicators_cmd_ptr_ n); cbn in H;
        repeat (destruct H as [H | H]; try discriminate H); try contradiction;
        congruence.
    + rewrite Hun in H by exact Hinit. destruct H.
  - intros [Hinit ->]. rewrite on_timer_published by exact Hinit.
    unfold publish_turn_indicators_report, publish_hazard_lights_report. cbn.
    destruct (current_turn_indicators_cmd_ptr_ n); cbn; tauto.
  - intros Hnone Hin. destruct (is_initialized_ n) eqn:Hinit.
    + rewrite on_timer_published in Hin by exact Hinit.
      unfold publish_turn_indicators_report, publish_hazard_lights_report in Hin.
      rewrite Hnone in Hin. cbn in Hin.
      destruct (current_hazard_lights_cmd_ptr_ n); cbn in Hin;
        repeat (destruct Hin as [Hin | Hin]; try discriminate Hin); contradiction.
    + rewrite Hun in Hin by exact Hinit. destruct Hin.
  - intros Hnone Hin. destruct (is_initialized_ n) eqn:Hinit.
    + rewrite on_timer_published in Hin by exact Hinit.
      unfold publish_turn_indicators_report, publish_hazard_lights_report in Hin.
      rewrite Hnone in Hin. cbn in Hin.
      destruct (current_turn_indicators_cmd_ptr_ n); cbn in Hin;
        repeat (destruct Hin as [Hin | Hin]; try discriminate Hin); contradiction.
    + rewrite Hun in Hin by exact Hinit. destruct Hin.
Qed.

(** ** Sequences of callbacks *)

(** A callback that sets a pose initialises the node; every other callback
    leaves [is_initialized_] as it is. *)
Lemma handle_is_initialized (env : Env) (e : Event env) (n n' : Node env)
    (out : list (Published env)) :
  handle e n = Some (n', out) ->
  is_initialized_ n' = is_initialized_ n \/ is_initialized_ n' = true.
Proof.
  destruct e; cbn [handle]; intros H;
    try (injection H as <- <-; left; reflexivity).
  - injection H as H. pose proof (on_timer_members env dt n) as Hm.
    rewrite H in Hm. left. apply Hm.
  - injection H as <- <-. left. unfold on_control_mode_request.
    destruct (mode =? Request_MANUAL env)%Z; [reflexivity|].
    destruct (mode =? Request_AUTONOMOUS env)%Z; reflexivity.
  - unfold on_initialpose in H.
    destruct (set_initial_state_with_transform fuel _ zero_twist n) as [n0|] eqn:H0;
      [|discriminate]. injection H as <- <-.
    apply set_initial_state_with_transform_initial_pose in H0.
    right. apply H0.
  - unfold on_initialtwist in H. destruct (initial_pose_ n) as [stored|].
    + destruct (set_initial_state_with_transform fuel _ msg n) as [n0|] eqn:H0;
        [|discriminate]. injection H as <- <-.
      apply set_initial_state_with_transform_initial_pose in H0.
      right. apply H0.
    + injection H as <- <-. left. reflexivity.
  - unfold on_set_pose in H.
    destruct (set_initial_state_with_transform fuel _ zero_twist n) as [n0|] eqn:H0;
      [|discriminate]. injection H as <- <-.
    apply set_initial_state_with_transform_initial_pose in H0.
    right. apply H0.
Qed.

(** The odometry messages of one callback of an initialised node: one for a
    tick, none otherwise. *)
Lemma handle_odometry_count (env : Env) (e : Event env) (n n' : Node env)
    (out : list (Published env)) :
  is_initialized_ n = true ->
  handle e n = Some (n', out) ->
  length (List.filter is_odometry out) = (if is_timer_event e then 1 else 0)%nat.
Proof.
  intros Hinit.
  destruct e; cbn [handle is_timer_event]; intros H;
    try (injection H as <- <-; reflexivity).
  - injection H as H. assert (out = snd (on_timer dt n)) as -> by now rewrite H.
    rewrite on_timer_published by exact Hinit.
    unfold publish_turn_indicators_report, publish_hazard_lights_report.
    destruct (current_turn_indicators_cmd_ptr_ n);
      destruct (current_hazard_lights_cmd_ptr_ n); reflexivity.
  - destruct (on_initialpose fuel msg n); [|discriminate].
    injection H as <- <-. reflexivity.
  - destruct (on_initialtwist fuel msg n); [|discriminate].
    injection H as <- <-. reflexivity.
  - destruct (on_set_pose fuel request n); [|discriminate].
    injection H as <- <-. reflexivity.
Qed.

(** X15.  Initialisation is permanent, and an initialised node publishes one
    odometry for each tick: after any sequence of callbacks that have
    returned, an initialised node is still initialised and the number of
    odometry messages published equals the number of timer callbacks. *)
Theorem run_keeps_initialised :
  forall (env : Env) (events : list (Event env)) (n n' : Node env)
         (out : list (Published env)),
    is_initialized_ n = true ->
    run events n = Some (n', out) ->
    is_initialized_ n' = true /\
    length (List.filter is_odometry out)
    = length (List.filter is_timer_event events).
Proof.
  intros env events. induction events as [|e rest IH]; intros n n' out Hinit H.
  - injection H as <- <-. split; [exact Hinit | reflexivity].
  - cbn [run] in H.
    destruct (handle e n) as [[n1 out1]|] eqn:He; [|discriminate].
    destruct (run rest n1) as [[n2 out2]|] eqn:Hr; [|discriminate].
    injection H as <- <-.
    assert (Hinit1 : is_initialized_ n1 = true).
    { destruct (handle_is_initialized env e n n1 out1 He); congruence. }
    destruct (IH n1 n2 out2 Hinit1 Hr) as [Hi Hc]. split; [exact Hi|].
    rewrite List.filter_app, length_app, Hc,
      (handle_odometry_count env e n n1 out1 Hinit He).
    cbn [List.filter]. destruct (is_timer_event e); reflexivity.
Qed.

Lemma run_keeps_initialised_witness :
  let dt := double_literal 1 40 in
  let n1 := on_gear_cmd 20 line_node in
  let events := [EvGearCmd 20; EvTimer dt] in
  run events line_node = Some (fst (on_timer dt n1), snd (on_timer dt n1) ++ []) /\
  is_initialized_ (fst (on_timer dt n1)) = true /\
  length (List.filter is_odometry (snd (on_timer dt n1) ++ [])) = 1%nat.
Proof.
  intros dt n1 events.
  assert (Hrun : run events line_node
                 = Some (fst (on_timer dt n1), snd (on_timer dt n1) ++ [])).
  { subst events. cbn [run handle]. fold n1.
    destruct (on_timer dt n1) as [n2 out]. reflexivity. }
  split; [exact Hrun|].
  exact (run_keeps_initialised line_env events line_node _ _ eq_refl Hrun).
Defined.

(** X16.  Until a pose arrives the node is silent.  From a node that is not
    initialised, every sequence of callbacks without [on_initialpose],
    [on_initialtwist] and [on_set_pose] returns, publishes nothing, leaves
    the node uninitialised and does not touch the vehicle model, whatever
    commands and ticks it contains. *)
Theorem run_uninitialised_is_silent :
  forall (env : Env) (events : list (Event env)) (n : Node env),
    is_initialized_ n = false ->
    forallb (fun e => negb (is_pose_event e)) events = true ->
    exists n' : Node env,
      run events n = Some (n', []) /\
      is_initialized_ n' = false /\
      vehicle_model_ptr_ n' = vehicle_model_ptr_ n.
Proof.
  intros env events. induction events as [|e rest IH]; intros n Hinit Hev.
  - exists n. repeat split; assumption.
  - cbn [forallb] in Hev. apply andb_prop in Hev. destruct Hev as [He Hrest].
    assert (Hstep : exists n1, handle e n = Some (n1, []) /\
                               is_initialized_ n1 = false /\
                               vehicle_model_ptr_ n1 = vehicle_model_ptr_ n).
    { destruct e; try discriminate He; cbn [handle];
        try (eexists; split; [reflexivity|]; split; [exact Hinit | reflexivity]).
      - exists n. unfold on_timer. rewrite Hinit. repeat split.
      - eexists. split; [reflexivity|]. unfold on_control_mode_request.
        destruct (mode =? Request_MANUAL env)%Z;
          [|destruct (mode =? Request_AUTONOMOUS env)%Z];
          (split; [exact Hinit | reflexivity]). }
    destruct Hstep as (n1 & H1 & Hi1 & Hm1).
    destruct (IH n1 Hi1 Hrest) as (n' & Hr & Hi & Hm).
    exists n'. cbn [run]. rewrite H1, Hr. repeat split; [exact Hi | congruence].
Qed.

Lemma run_uninitialised_is_silent_witness :
  exists n' : Node line_env,
    run [EvTimer (double_literal 1 40); EvGearCmd 20; EvEngage true; EvTimer (double_literal 1 40)]
      (set_is_initialized false line_node) = Some (n', []) /\
    is_initialized_ n' = false /\
    vehicle_model_ptr_ n' = vehicle_model_ptr_ line_node.
Proof.
  apply (run_uninitialised_is_silent line_env
           [EvTimer (double_literal 1 40); EvGearCmd 20; EvEngage true; EvTimer (double_literal 1 40)]
           (set_is_initialized false line_node)); reflexivity.
Defined.

(** The state vector over a tick without motion. *)
Lemma on_timer_state_disengaged (env : Env) (dt : double) (n : Node env) :
  simulate_motion_ n = false ->
  state_ (vehicle_model_ptr_ (fst (on_timer dt n))) = state_ (vehicle_model_ptr_ n).
Proof.
  intros Hmotion. unfold on_timer.
  destruct (is_initialized_ n); cbn [negb fst]; [|reflexivity].
  rewrite update_vehicle_dynamics_model, Hmotion.
  unfold set_current_state. node_simpl. reflexivity.
Qed.

(** X17.  A disengaged simulator holds its state.  While motion is not
    simulated, every sequence of ticks, commands, trajectories and control
    mode requests returns and leaves the state vector of the vehicle model as
    it is; only an engage message or a pose can change that. *)
Theorem run_disengaged_holds_state :
  forall (env : Env) (events : list (Event env)) (n : Node env),
    simulate_motion_ n = false ->
    forallb (fun e => negb (is_pose_event e || is_engage_event e)) events = true ->
    exists (n' : Node env) (out : list (Published env)),
      run events n = Some (n', out) /\
      simulate_motion_ n' = false /\
      state_ (vehicle_model_ptr_ n') = state_ (vehicle_model_ptr_ n).
Proof.
  intros env events. induction events as [|e rest IH]; intros n Hmotion Hev.
  - exists n, []. repeat split; assumption.
  - cbn [forallb] in Hev. apply andb_prop in Hev. destruct Hev as [He Hrest].
    assert (Hstep : exists n1 out1, handle e n = Some (n1, out1) /\
                                    simulate_motion_ n1 = false /\
                                    state_ (vehicle_model_ptr_ n1)
                                    = state_ (vehicle_model_ptr_ n)).
    { destruct e; try discriminate He; cbn [handle];
        try (eexists; eexists; split; [reflexivity|];
             split; [exact Hmotion | reflexivity]).
      - exists (fst (on_timer dt n)), (snd (on_timer dt n)).
        split; [now destruct (on_timer dt n)|]. split.
        + destruct (on_timer_members env dt n) as (_ & Hs & _). congruence.
        + now apply on_timer_state_disengaged.
      - eexists; eexists. split; [reflexivity|]. unfold on_control_mode_request.
        destruct (mode =? Request_MANUAL env)%Z;
          [|destruct (mode =? Request_AUTONOMOUS env)%Z];
          (split; [exact Hmotion | reflexivity]). }
    destruct Hstep as (n1 & out1 & H1 & Hs1 & Hm1).
    destruct (IH n1 Hs1 Hrest) as (n' & out & Hr & Hs & Hm).
    exists n', (out1 ++ out). cbn [run]. rewrite H1, Hr.
    repeat split; [exact Hs | congruence].
Qed.

Lemma run_disengaged_holds_state_witness :
  exists (n' : Node line_env) (out : list (Published line_env)),
    run [EvTimer (double_literal 1 40); EvGearCmd 20; EvTimer (double_literal 1 40)]
      (on_engage false line_node) = Some (n', out) /\
    simulate_motion_ n' = false /\
    state_ (vehicle_model_ptr_ n') = [dz 4; dz 0; dz 0; dz 2].
Proof.
  apply (run_disengaged_holds_state line_env
           [EvTimer (double_literal 1 40); EvGearCmd 20; EvTimer (double_literal 1 40)]
           (on_engage false line_node)); reflexivity.
Defined.

(** X18.  A control mode request takes effect at the next tick.  After a
    successful request for [MANUAL] the tick reports the mode [MANUAL] and
    hands the manual gear and the input of the manual control command to the
    vehicle model; after a request for [AUTONOMOUS] it reports [AUTONOMOUS]
    and uses the autonomous gear and command.  The input is the one
    [set_input] forms: the acceleration as the [float] of [input_acc], every
    component converted to [double].  The two report constants are distinct,
    and so are the two request constants. *)
Theorem control_mode_request_then_tick :
  forall (env : Env) (dt : double) (n : Node env) (manual : bool),
    is_initialized_ n = true ->
    ControlModeReport_MANUAL env <> ControlModeReport_AUTONOMOUS env ->
    Request_AUTONOMOUS env <> Request_MANUAL env ->
    let request := if manual then Request_MANUAL env else Request_AUTONOMOUS env in
    let report :=
      if manual then ControlModeReport_MANUAL env
      else ControlModeReport_AUTONOMOUS env in
    let cmd := if manual then current_manual_ackermann_cmd_ n
               else current_ackermann_cmd_ n in
    let gear := if manual then current_manual_gear_cmd_ n else current_gear_cmd_ n in
    let acc_by_slope :=
      if enable_road_slope_simulation_ n
      then dmul (dopp (double_literal 981 100))
             (sin env (calculate_ego_pitch env (road_lanelets_ n) (vehicle_model_ptr_ n)))
      else dzero in
    let n1 := fst (on_control_mode_request request n) in
    snd (on_control_mode_request request n) = true /\
    In (PubControlModeReport report) (snd (on_timer dt n1)) /\
    exists m : VehicleModel,
      vehicle_model_ptr_ (fst (on_timer dt n1))
      = (if simulate_motion_ n then update env dt m else m) /\
      getGear m = gear /\
      SimplePlanningSimulator.input_ (interface m)
      = (if SimplePlanningSimulator.is_velocity_model (vehicle_model_type_ n)
         then [to_double (SimplePlanningSimulator.speed
                            (SimplePlanningSimulator.longitudinal cmd));
               to_double (SimplePlanningSimulator.steering_tire_angle
                            (SimplePlanningSimulator.lateral cmd))]
         else [to_double
                 (SimplePlanningSimulator.input_acc (GearCommand_NONE env)
                    (GearCommand_REVERSE env) (GearCommand_REVERSE_2 env) gear
                    (SimplePlanningSimulator.acceleration
                       (SimplePlanningSimulator.longitudinal cmd))
                    acc_by_slope);
               to_double (SimplePlanningSimulator.steering_tire_angle
                            (SimplePlanningSimulator.lateral cmd))]).
Proof.
  intros env dt n manual Hinit Hreport Hrequest. cbv zeta.
  assert (Hreq : on_control_mode_request
                   (if manual then Request_MANUAL env else Request_AUTONOMOUS env) n
                 = (set_control_mode
                      (if manual then ControlModeReport_MANUAL env
                       else ControlModeReport_AUTONOMOUS env) n, true)).
  { unfold on_control_mode_request. destruct manual.
    - now rewrite Z.eqb_refl.
    - destruct (Z.eqb_spec (Request_AUTONOMOUS env) (Request_MANUAL env));
        [contradiction|]. now rewrite Z.eqb_refl. }
  rewrite Hreq. cbn [fst snd]. split; [reflexivity|]. split.
  - rewrite on_timer_published by exact Hinit.
    unfold publish_control_mode_report. node_simpl. cbn. tauto.
  - unfold on_timer. node_simpl. rewrite Hinit. cbn [negb fst].
    rewrite update_vehicle_dynamics_model. unfold set_current_state. node_simpl.
    assert (Hmode : ((if manual then ControlModeReport_MANUAL env
                      else ControlModeReport_AUTONOMOUS env)
                     =? ControlModeReport_AUTONOMOUS env)%Z = negb manual).
    { destruct manual; cbn [negb]; [|apply Z.eqb_refl].
      now apply Z.eqb_neq. }
    rewrite Hmode.
    eexists. split; [reflexivity|]. split.
    + destruct manual; reflexivity.
    + cbn [interface]. rewrite set_input_vector. destruct manual; reflexivity.
Qed.

(** In the scenario the manual side is in reverse with the acceleration
    0.5: the model gets -0.5. *)
Lemma control_mode_request_then_tick_witness :
  let n1 := fst (on_control_mode_request 2 line_node) in
  snd (on_control_mode_request 2 line_node) = true /\
  In (PubControlModeReport 4) (snd (on_timer (double_literal 1 40) n1)) /\
  exists m : VehicleModel,
    vehicle_model_ptr_ (fst (on_timer (double_literal 1 40) n1))
    = straight_update (double_literal 1 40) m /\
    getGear m = 20%Z /\
    SimplePlanningSimulator.input_ (interface m)
    = [dopp (double_literal 1 2); dzero].
Proof.
  intros n1. subst n1.
  destruct (control_mode_request_then_tick line_env (double_literal 1 40) line_node
              true eq_refl)
    as (Hs & Hin & m & Hm & Hg & Hi); [discriminate | discriminate |].
  split; [exact Hs|]. split; [exact Hin|].
  exists m. split; [exact Hm|]. split; [exact Hg|].
  rewrite Hi. vm_compute. reflexivity.
Defined.

End NodeFacts.
